(** * addon-manager: the workflow lifecycle of [pkg/workflows/workflow.go]

    A shallow embedding of the workflow lifecycle (template rendering,
    parameter injection, artifact post-processing, submission, collision
    resolution and status translation) and the properties stated about it.

    Conventions of the embedding:
    - a Go [interface{}] holding a JSON-like tree is a [value]; a
      [map[string]interface{}] is a [gmap string value];
    - a Go call that may panic returns a [go], one that returns [(T, error)]
      or [error] and may panic returns an [outcome];
    - the cluster is an explicit [World] threaded through the calls that
      talk to the API server;
    - the YAML codec, the RFC3339 parser and the order in which [range]
      visits a map are parameters of the functions that use them. *)

From Stdlib Require Import ZArith Ascii String List Permutation.
From stdpp Require Import gmap strings list fin_maps.

#[local] Set Warnings "-register-all".
#[local] Open Scope string_scope.
#[local] Open Scope list_scope.

(** ** Loosely typed documents *)

(** The dynamic values that [yaml.Unmarshal] and the [unstructured] helpers
    put behind an [interface{}].  A [float64] is kept as its 64 bits: the
    code never computes with one. *)
Inductive value : Type :=
| VNil
| VBool (b : bool)
| VInt64 (z : Z)
| VFloat64 (bits : Z)
| VString (s : string)
| VSlice (l : list value)
| VMap (m : gmap string value).

Abbreviation Unstructured := (gmap string value).

Definition error : Type := string.

(** A Go call either returns or panics. *)
Inductive go (A : Type) : Type :=
| Return (a : A)
| Panic.
Arguments Return {A} a.
Arguments Panic {A}.

(** A Go call of result type [(T, error)] or [error]: [Ok] is the return
    with a nil error, [Err] the return with a non-nil error. *)
Inductive outcome (A : Type) : Type :=
| Ok (a : A)
| Err (e : error)
| Abort.
Arguments Ok {A} a.
Arguments Err {A} e.
Arguments Abort {A}.

(** How a loop iteration ends: with a [return], with the loop variables
    for the next iteration, or with a panic. *)
Inductive loop (R S : Type) : Type :=
| Break (r : R)
| Next (s : S)
| Crash.
Arguments Break {R S} r.
Arguments Next {R S} s.
Arguments Crash {R S}.

Definition obind {A B} (x : outcome A) (f : A -> outcome B) : outcome B :=
  match x with
  | Ok a => f a
  | Err e => Err e
  | Abort => Abort
  end.

Notation "x <-! e1 ;; e2" := (obind e1 (fun x => e2))
  (at level 100, e1 at next level, right associativity).

Fixpoint omapM {A B} (f : A -> outcome B) (l : list A) : outcome (list B) :=
  match l with
  | [] => Ok []
  | a :: l' => b <-! f a ;; bs <-! omapM f l' ;; Ok (b :: bs)
  end.

(** ** The [strings] package *)

Module strings.

(** [strings.Contains(s, substr)]. *)
Fixpoint Contains (s substr : string) : bool :=
  String.prefix substr s ||
  match s with
  | EmptyString => false
  | String _ s' => Contains s' substr
  end.

(** The loop of [strings.Split] for a non-empty separator: [skip] counts
    the characters of a separator just matched that are still to be
    dropped, [cur] is the piece being read. *)
Fixpoint split_from (sep : string) (skip : nat) (cur s : string) : list string :=
  match s with
  | EmptyString => [cur]
  | String c s' =>
      match skip with
      | S k => split_from sep k cur s'
      | O =>
          if String.prefix sep s
          then cur :: split_from sep (String.length sep - 1) "" s'
          else split_from sep 0 (cur +:+ String c "") s'
      end
  end.

(** [strings.Split(s, sep)]; with an empty separator Go explodes the
    string into its characters. *)
Definition Split (s sep : string) : list string :=
  match sep with
  | EmptyString => (fun c => String c "") <$> list_ascii_of_string s
  | _ => split_from sep 0 "" s
  end.

(** [strings.Join(elems, sep)]. *)
Fixpoint Join (elems : list string) (sep : string) : string :=
  match elems with
  | [] => ""
  | [e] => e
  | e :: rest => e +:+ sep +:+ Join rest sep
  end.

(** [strings.ToLower] on ASCII letters. *)
Definition lower (c : ascii) : ascii :=
  let n := nat_of_ascii c in
  if (65 <=? n)%nat && (n <=? 90)%nat then ascii_of_nat (n + 32) else c.

Fixpoint ToLower (s : string) : string :=
  match s with
  | EmptyString => EmptyString
  | String c s' => String (lower c) (ToLower s')
  end.

End strings.

(** ** [k8s.io/apimachinery/pkg/apis/meta/v1/unstructured] *)

Module unstructured.

(** The three results of a nested accessor: [(v, true, nil)],
    [(zero, false, nil)] and [(zero, false, err)]. *)
Inductive nested (A : Type) : Type :=
| Found (a : A)
| Missing
| Mismatch.
Arguments Found {A} a.
Arguments Missing {A}.
Arguments Mismatch {A}.

Definition found {A} (n : nested A) : bool :=
  match n with Found _ => true | _ => false end.

(** The walk of [NestedFieldNoCopy], started at any value. *)
Fixpoint walk (val : value) (fields : list string) : nested value :=
  match fields with
  | [] => Found val
  | f :: fs =>
      match val with
      | VNil => Missing
      | VMap m =>
          match m !! f with
          | Some v => walk v fs
          | None => Missing
          end
      | _ => Mismatch
      end
  end.

Definition NestedFieldNoCopy (obj : gmap string value) (fields : list string) : nested value :=
  walk (VMap obj) fields.

Definition NestedString (obj : gmap string value) (fields : list string) : nested string :=
  match NestedFieldNoCopy obj fields with
  | Found (VString s) => Found s
  | Found _ => Mismatch
  | Missing => Missing
  | Mismatch => Mismatch
  end.

(** [NestedMap] returns a deep copy; values are immutable here, so the
    copy is the value. *)
Definition NestedMap (obj : gmap string value) (fields : list string) : nested (gmap string value) :=
  match NestedFieldNoCopy obj fields with
  | Found (VMap m) => Found m
  | Found _ => Mismatch
  | Missing => Missing
  | Mismatch => Mismatch
  end.

(** [SetNestedField]: intermediate maps are created where absent; a
    level that holds something else than a map is an error, and nothing
    has been written then.  With no field at all Go indexes out of
    range. *)
Fixpoint SetNestedField (obj : gmap string value) (v : value) (fields : list string)
  : outcome (gmap string value) :=
  match fields with
  | [] => Abort
  | [f] => Ok (<[f := v]> obj)
  | f :: fs =>
      match obj !! f with
      | Some (VMap m) => m' <-! SetNestedField m v fs ;; Ok (<[f := VMap m']> obj)
      | Some _ => Err "value cannot be set because a level is not a map[string]interface{}"
      | None => m' <-! SetNestedField ∅ v fs ;; Ok (<[f := VMap m']> obj)
      end
  end.

Definition SetNestedMap (obj : gmap string value) (m : gmap string value) (fields : list string) :=
  SetNestedField obj (VMap m) fields.

Definition SetNestedSlice (obj : gmap string value) (l : list value) (fields : list string) :=
  SetNestedField obj (VSlice l) fields.

(** [RemoveNestedField]: a no-op when the path does not lead through
    maps. *)
Fixpoint RemoveNestedField (obj : gmap string value) (fields : list string) : gmap string value :=
  match fields with
  | [] => obj
  | [f] => delete f obj
  | f :: fs =>
      match obj !! f with
      | Some (VMap m) => <[f := VMap (RemoveNestedField m fs)]> obj
      | _ => obj
      end
  end.

(** The method [setNestedField] of [Unstructured] drops the error. *)
Definition setNestedField (u : Unstructured) (v : value) (fields : list string) : Unstructured :=
  match SetNestedField u v fields with
  | Ok u' => u'
  | _ => u
  end.

Definition getNestedString (u : Unstructured) (fields : list string) : string :=
  match NestedString u fields with
  | Found s => s
  | _ => ""
  end.

Definition GetName (u : Unstructured) : string := getNestedString u ["metadata"; "name"].
Definition GetNamespace (u : Unstructured) : string := getNestedString u ["metadata"; "namespace"].

Definition SetName (name : string) (u : Unstructured) : Unstructured :=
  if decide (name = "") then RemoveNestedField u ["metadata"; "name"]
  else setNestedField u (VString name) ["metadata"; "name"].

Definition SetNamespace (namespace : string) (u : Unstructured) : Unstructured :=
  if decide (namespace = "") then RemoveNestedField u ["metadata"; "namespace"]
  else setNestedField u (VString namespace) ["metadata"; "namespace"].

(** [SetGroupVersionKind]: [apiVersion] is [group/version]. *)
Definition SetGroupVersionKind (group version kind : string) (u : Unstructured) : Unstructured :=
  setNestedField (setNestedField u (VString (group +:+ "/" +:+ version)) ["apiVersion"])
                 (VString kind) ["kind"].

End unstructured.

(** ** [api/v1alpha1]: the addon resource *)

(** Modelled from the spec: the declaration of the lifecycle phases
    ([api/v1alpha1/addon_types.go]) is not part of the sources at hand; the
    spec gives the three phases this package returns. *)
Inductive ApplicationAssemblyPhase : Type :=
| Pending
| Succeeded
| Failed.

(** Modelled from the spec: the declaration of [ClusterContext] is not part
    of the sources at hand.  The spec names its string fields
    ([clusterName], [clusterRegion]) and its open map; the generated
    deep-copy code confirms that [AdditionalConfigs] is the only field that
    is not copied by assignment. *)
Record ClusterContext : Type := {
  ClusterName : string;
  ClusterRegion : string;
  AdditionalConfigs : gmap string string
}.

Record AddonParams : Type := {
  ParamsNamespace : string;
  Context : ClusterContext;
  Data : gmap string string
}.

(** The fields of [Addon] that the workflow lifecycle reads. *)
Record Addon : Type := {
  Name : string;
  Namespace : string;
  UID : string;
  PkgVersion : string;
  Params : AddonParams;
  Checksum : string
}.

Record WorkflowType : Type := {
  Template : string;
  Role : string
}.

(** ** [reflect]: what the parameter injector sees of a struct *)

Module reflect.

Inductive Value : Type :=
| String (s : string)
| Map (m : gmap string string)
| Bool (b : bool)
| Int (z : Z).

Inductive Kind : Type := KString | KMap | KBool | KInt.

Definition kind (v : Value) : Kind :=
  match v with
  | String _ => KString
  | Map _ => KMap
  | Bool _ => KBool
  | Int _ => KInt
  end.

Definition isString (v : Value) : bool :=
  match v with String _ => true | _ => false end.

(** [Value.String()]: the string itself for a string, a placeholder for
    any other kind. *)
Definition toString (v : Value) : string :=
  match v with
  | String s => s
  | Map _ => "<map[string]v1alpha1.FlexString Value>"
  | Bool _ => "<bool Value>"
  | Int _ => "<int Value>"
  end.

(** A struct field: its Go name, the [json] key of its tag, its value. *)
Record StructField : Type := {
  FieldName : string;
  TagJSON : string;
  FieldValue : Value
}.

Definition FieldByName (fields : list StructField) (name : string) : option Value :=
  FieldValue <$> List.find (fun f => String.eqb (FieldName f) name) fields.

(** [reflect.ValueOf(contextParams)]: the fields in declaration order. *)
Definition ValueOf (c : ClusterContext) : list StructField :=
  [ {| FieldName := "ClusterName"; TagJSON := "clusterName,omitempty";
       FieldValue := String (ClusterName c) |};
    {| FieldName := "ClusterRegion"; TagJSON := "clusterRegion,omitempty";
       FieldValue := String (ClusterRegion c) |};
    {| FieldName := "AdditionalConfigs"; TagJSON := "additionalConfigs,omitempty";
       FieldValue := Map (AdditionalConfigs c) |} ].

End reflect.

(** ** The cluster *)

(** An event handed to the recorder: type, reason, message. *)
Record Event : Type := {
  EventType : string;
  EventReason : string;
  EventMessage : string
}.

(** The part of the cluster the lifecycle talks to: the workflow objects of
    the API server, in the order in which a list call returns them, and the
    events recorded so far. *)
Record World : Type := {
  objects : list Unstructured;
  events : list Event
}.

Module cluster.

Definition NotFound : error := "NotFound".
Definition AlreadyExists : error := "AlreadyExists".

(** [apierrors.IsNotFound]. *)
Definition IsNotFound (e : error) : bool := String.eqb e NotFound.

Definition keyed (namespace name : string) (o : Unstructured) : bool :=
  String.eqb (unstructured.GetNamespace o) namespace && String.eqb (unstructured.GetName o) name.

Definition Get (namespace name : string) (w : World) : outcome Unstructured :=
  match List.find (keyed namespace name) (objects w) with
  | Some o => Ok o
  | None => Err NotFound
  end.

Definition List (namespace : string) (w : World) : outcome (list Unstructured) :=
  Ok (List.filter (fun o => String.eqb (unstructured.GetNamespace o) namespace) (objects w)).

Definition Create (o : Unstructured) (w : World) : outcome World :=
  if existsb (keyed (unstructured.GetNamespace o) (unstructured.GetName o)) (objects w)
  then Err AlreadyExists
  else Ok {| objects := objects w ++ [o]; events := events w |}.

Definition Delete (namespace name : string) (w : World) : outcome World :=
  if existsb (keyed namespace name) (objects w)
  then Ok {| objects := List.filter (fun o => negb (keyed namespace name o)) (objects w);
             events := events w |}
  else Err NotFound.

Definition Event (e : Event) (w : World) : World :=
  {| objects := objects w; events := events w ++ [e] |}.

End cluster.

(** ** Owner references ([metav1.OwnerReference], [controllerutil]) *)

Module owner.

Import unstructured.

Record OwnerReference : Type := {
  APIVersion : string;
  Kind : string;
  RefName : string;
  RefUID : string;
  Controller : option bool;
  BlockOwnerDeletion : option bool
}.

Definition nestedBool (v : gmap string value) (f : string) : option bool :=
  match v !! f with
  | Some (VBool b) => Some b
  | _ => None
  end.

Definition extractOwnerReference (v : gmap string value) : OwnerReference :=
  {| APIVersion := getNestedString v ["apiVersion"];
     Kind := getNestedString v ["kind"];
     RefName := getNestedString v ["name"];
     RefUID := getNestedString v ["uid"];
     Controller := nestedBool v "controller";
     BlockOwnerDeletion := nestedBool v "blockOwnerDeletion" |}.

Definition optField (f : string) (b : option bool) (m : gmap string value) : gmap string value :=
  match b with
  | Some b => <[f := VBool b]> m
  | None => m
  end.

Definition toUnstructured (r : OwnerReference) : value :=
  VMap (optField "controller" (Controller r)
       (optField "blockOwnerDeletion" (BlockOwnerDeletion r)
       (<["apiVersion" := VString (APIVersion r)]>
       (<["kind" := VString (Kind r)]>
       (<["name" := VString (RefName r)]>
       (<["uid" := VString (RefUID r)]> ∅)))))).

Definition asMap (v : value) : option (gmap string value) :=
  match v with VMap m => Some m | _ => None end.

(** [GetOwnerReferences]: nil unless the field is a list of maps. *)
Definition GetOwnerReferences (u : Unstructured) : list OwnerReference :=
  match NestedFieldNoCopy u ["metadata"; "ownerReferences"] with
  | Found (VSlice original) =>
      match mapM asMap original with
      | Some ms => extractOwnerReference <$> ms
      | None => []
      end
  | _ => []
  end.

Definition SetOwnerReferences (refs : list OwnerReference) (u : Unstructured) : Unstructured :=
  match refs with
  | [] => RemoveNestedField u ["metadata"; "ownerReferences"]
  | _ => setNestedField u (VSlice (toUnstructured <$> refs)) ["metadata"; "ownerReferences"]
  end.

(** The group of an [apiVersion]: what precedes the slash, if any. *)
Definition groupOf (apiVersion : string) : option string :=
  match strings.Split apiVersion "/" with
  | [_] => Some ""
  | [g; _] => Some g
  | _ => None
  end.

Definition referSameObject (a b : OwnerReference) : bool :=
  match groupOf (APIVersion a), groupOf (APIVersion b) with
  | Some ga, Some gb =>
      String.eqb ga gb && String.eqb (Kind a) (Kind b) && String.eqb (RefName a) (RefName b)
  | _, _ => false
  end.

(** The loop of [SetControllerReference] over the existing references:
    the last index of a reference to the owner, or the error of an object
    that another controller owns. *)
Fixpoint lastSame (ref : OwnerReference) (existing : list OwnerReference) (i : nat)
  (fi : option nat) : outcome (option nat) :=
  match existing with
  | [] => Ok fi
  | r :: rest =>
      if referSameObject ref r then lastSame ref rest (S i) (Some i)
      else if bool_decide (Controller r = Some true)
           then Err "Object is already owned by another controller"
           else lastSame ref rest (S i) fi
  end.

(** [metav1.NewControllerRef]. *)
Definition NewControllerRef (apiVersion kind name uid : string) : OwnerReference :=
  {| APIVersion := apiVersion; Kind := kind; RefName := name; RefUID := uid;
     Controller := Some true; BlockOwnerDeletion := Some true |}.

Definition SetControllerReference (ref : OwnerReference) (object : Unstructured)
  : outcome Unstructured :=
  let existingRefs := GetOwnerReferences object in
  fi <-! lastSame ref existingRefs 0 None ;;
  let refs := match fi with
              | None => existingRefs ++ [ref]
              | Some i => <[i := ref]> existingRefs
              end in
  Ok (SetOwnerReferences refs object).

End owner.

(** ** [pkg/workflows/workflow.go] *)

Section Workflows.

Import unstructured.

(** [yaml.Unmarshal] into a [map[string]interface{}] and [yaml.Marshal]
    of one ([github.com/ghodss/yaml]); [None] is a returned error. *)
Variable yamlUnmarshal : string -> option (gmap string value).
Variable yamlMarshal : gmap string value -> option string.

(** [time.Parse(time.RFC3339, _)]: the instant, counted from the zero
    [time.Time]; [None] is a returned error. *)
Variable parseRFC3339 : string -> option Z.

(** [common.AddonGVR().Group], the API group of the addon resource. *)
Variable addonGroup : string.

(** The receiver [w *workflowLifecycle] is its addon; its clients and its
    recorder act on the [World]. *)
Variable addon : Addon.

Definition isNil (v : option value) : bool :=
  match v with
  | None | Some VNil => true
  | Some _ => false
  end.

(** *** parse *)

Definition parse (wt : WorkflowType) (name : string) : outcome Unstructured :=
  match yamlUnmarshal (Template wt) with
  | None => Err "invalid workflow yaml spec passed."
  | Some data =>
      let wf := SetGroupVersionKind "argoproj.io" "v1alpha1" "Workflow" ∅ in
      let wf := SetNamespace (Namespace addon) wf in
      let wf := SetName name wf in
      match data !! "spec" with
      | None => Err "invalid workflow, missing spec"
      | Some (VMap spec) =>
          let spec :=
            if isNil (spec !! "ttlSecondsAfterFinished")
            then <["ttlSecondsAfterFinished" := VInt64 259200]> spec
            else spec in
          Ok (<["spec" := VMap spec]> wf)
      | Some _ => Abort
      end
  end.

(** *** configureGlobalWFParameters *)

Definition parameter (name val : string) : value :=
  VMap (<["name" := VString name]> (<["value" := VString val]> ∅)).

Definition jsonTag (tag : string) : string :=
  List.hd "" (strings.Split tag ",").

(** The loop over the fields of the context struct. *)
Definition contextParameters (cp : list reflect.StructField) : list value :=
  omap (fun f =>
          if reflect.isString (reflect.FieldValue f)
          then Some (parameter (jsonTag (reflect.TagJSON f))
                       (default "" (reflect.toString <$> reflect.FieldByName cp (reflect.FieldName f))))
          else None) cp.

(** The loop over a map of strings, in the order [range] visits it. *)
Definition mapParameters (visited : list (string * string)) : list value :=
  (fun kv => parameter kv.1 kv.2) <$> visited.

(** What is appended to [spec.arguments.parameters]. *)
Definition addonParameters (additionalConfigs dataParams : list (string * string)) : list value :=
  [parameter "namespace" (ParamsNamespace (Params addon))]
    ++ contextParameters (reflect.ValueOf (Context (Params addon)))
    ++ mapParameters additionalConfigs
    ++ mapParameters dataParams.

(** [additionalConfigs] and [dataParams] are the entries of the two maps
    in the order the two [range] loops visit them.  The result is the
    returned flag and the workflow as the call leaves it. *)
Definition configureGlobalWFParameters (additionalConfigs dataParams : list (string * string))
  (wf : Unstructured) : go (bool * Unstructured) :=
  match wf !! "spec" with
  | Some (VMap spec) =>
      let spec :=
        if isNil (spec !! "arguments") then <["arguments" := VMap ∅]> spec else spec in
      match spec !! "arguments" with
      | Some (VMap arguments) =>
          let arguments :=
            if isNil (arguments !! "parameters")
            then <["parameters" := VSlice []]> arguments else arguments in
          match arguments !! "parameters" with
          | Some (VSlice wfParams) =>
              let wfParams := wfParams ++ addonParameters additionalConfigs dataParams in
              let wf := <["spec" := VMap (<["arguments" := VMap arguments]> spec)]> wf in
              match SetNestedSlice wf wfParams ["spec"; "arguments"; "parameters"] with
              | Ok wf' => Return (true, wf')
              | Err _ => Return (false, wf)
              | Abort => Panic
              end
          | _ => Panic
          end
      | _ => Panic
      end
  | _ => Panic
  end.

(** *** addDefaultLabelsToResource, addRoleAnnotateToResource *)

(** A Go variable of map type that may hold the nil map: reading the nil
    map finds nothing, writing to it panics. *)
Definition contents (m : option (gmap string value)) : gmap string value :=
  default ∅ m.

Definition store (k : string) (v : value) (m : option (gmap string value))
  : outcome (gmap string value) :=
  match m with
  | Some m => Ok (<[k := v]> m)
  | None => Abort
  end.

(** The result of [NestedMap] as a Go map variable. *)
Definition mapOrNil (n : nested (gmap string value)) : option (gmap string value) :=
  match n with
  | Found m => Some m
  | _ => None
  end.

Definition addDefaultLabelsToResource (resource : gmap string value)
  : outcome (gmap string value) :=
  match NestedMap resource ["metadata"] with
  | Mismatch => Err "metadata accessor error"
  | n =>
      let metadata := mapOrNil n in
      metadata <-!
        (if found (NestedMap (contents metadata) ["labels"]) then Ok (contents metadata)
         else store "labels" (VMap ∅) metadata) ;;
      let labels := mapOrNil (NestedMap metadata ["labels"]) in
      labels <-! store "app.kubernetes.io/name" (VString (Name addon)) labels ;;
      let labels := <["app.kubernetes.io/version" := VString (PkgVersion addon)]> labels in
      let labels := <["app.kubernetes.io/part-of" := VString (Name addon)]> labels in
      let labels := <["app.kubernetes.io/managed-by" := VString addonGroup]> labels in
      SetNestedMap resource labels ["metadata"; "labels"]
  end.

Definition roleAnnotation : string := "iam.amazonaws.com/role".

Definition addRoleAnnotateToResource (resource : gmap string value) (wt : WorkflowType)
  : outcome (gmap string value) :=
  found_or_created <-!
    match NestedMap resource ["spec"; "template"; "metadata"] with
    | Found metadata => Ok (resource, Some metadata)
    | _ =>
        resource <-! SetNestedMap resource ∅ ["spec"; "template"; "metadata"] ;;
        Ok (resource, mapOrNil (NestedMap resource ["spec"; "template"; "metadata"]))
    end ;;
  let resource := found_or_created.1 in
  let metadata := found_or_created.2 in
  metadata <-!
    (if found (NestedMap (contents metadata) ["annotations"]) then Ok (contents metadata)
     else store "annotations" (VMap ∅) metadata) ;;
  let annotations := mapOrNil (NestedMap metadata ["annotations"]) in
  annotations <-! store roleAnnotation (VString (Role wt)) annotations ;;
  SetNestedMap resource annotations ["spec"; "template"; "metadata"; "annotations"].

(** *** processArtifacts *)

Definition labelled (kind : string) : bool :=
  String.eqb kind "StatefulSet" || String.eqb kind "Deployment" ||
  String.eqb kind "DaemonSet" || String.eqb kind "ReplicaSet" ||
  String.eqb kind "Service".

(** The body of the inner loop between [yaml.Unmarshal] and
    [yaml.Marshal]: the kind of the document and what is done to it. *)
Definition patchResource (wt : WorkflowType) (resource : gmap string value)
  : outcome (gmap string value) :=
  match resource !! "kind" with
  | Some (VString kind) =>
      if labelled kind then
        resource <-! addDefaultLabelsToResource resource ;;
        if negb (String.eqb (Role wt) "") then addRoleAnnotateToResource resource wt
        else Ok resource
      else Ok resource
  | _ => Abort
  end.

(** The body of the inner loop: one document of [raw.data]. *)
Definition processResource (wt : WorkflowType) (obj : string) : outcome string :=
  match yamlUnmarshal obj with
  | None => Err ("unable to unmarshall artifact: " +:+ obj)
  | Some resource =>
      resource <-! patchResource wt resource ;;
      match yamlMarshal resource with
      | Some appendData => Ok appendData
      | None => Err "unable to marshall resource"
      end
  end.

Definition separator : string := String "-" (String "-" (String "-" (String "010" ""))).

(** What the outer loop computes for the [raw.data] of one artifact. *)
Definition processData (wt : WorkflowType) (data : string) : outcome string :=
  newData <-! omapM (processResource wt) (strings.Split data separator) ;;
  Ok (strings.Join newData separator).

(** The body of the outer loop: one artifact, updated in place. *)
Definition processArtifact (wt : WorkflowType) (artifact : value) : outcome value :=
  match artifact with
  | VMap artifact =>
      let data := getNestedString artifact ["raw"; "data"] in
      data <-! processData wt data ;;
      artifact <-! SetNestedField artifact (VString data) ["raw"; "data"] ;;
      Ok (VMap artifact)
  | _ => Abort
  end.

(** [processArtifacts] updates the artifacts of the step object in place;
    here it returns the step object as the call leaves it. *)
Definition processArtifacts (workflowStepObject : value) (wt : WorkflowType) : outcome value :=
  match workflowStepObject with
  | VMap step =>
      match NestedFieldNoCopy step ["arguments"; "artifacts"] with
      | Found (VSlice artifacts) =>
          artifacts <-! omapM (processArtifact wt) artifacts ;;
          Ok (VMap (setNestedField step (VSlice artifacts) ["arguments"; "artifacts"]))
      | Found VNil | Missing | Mismatch => Ok workflowStepObject
      | Found _ => Abort
      end
  | _ => Abort
  end.

(** *** configureWorkflowArtifacts *)

(** One element of [allSteps]: a list of steps. *)
Definition processSteps (wt : WorkflowType) (steps : value) : outcome value :=
  match steps with
  | VSlice steps => steps <-! omapM (fun step => processArtifacts step wt) steps ;; Ok (VSlice steps)
  | _ => Abort
  end.

(** One element of [spec.templates]. *)
Definition processTemplate (wt : WorkflowType) (template : value) : outcome value :=
  match template with
  | VMap template =>
      match NestedFieldNoCopy template ["steps"] with
      | Found (VSlice allSteps) =>
          allSteps <-! omapM (processSteps wt) allSteps ;;
          Ok (VMap (<["steps" := VSlice allSteps]> template))
      | Found _ => Abort
      | _ => Ok (VMap template)
      end
  | _ => Abort
  end.

Definition configureWorkflowArtifacts (wf : Unstructured) (wt : WorkflowType)
  : outcome Unstructured :=
  match NestedFieldNoCopy wf ["spec"] with
  | Found spec =>
      spec <-! processArtifacts spec wt ;;
      let wf := <["spec" := spec]> wf in
      match NestedFieldNoCopy wf ["spec"; "templates"] with
      | Found (VSlice templates) =>
          templates <-! omapM (processTemplate wt) templates ;;
          Ok (setNestedField wf (VSlice templates) ["spec"; "templates"])
      | _ => Abort
      end
  | _ => Abort
  end.

(** *** Delete, findWorkflowByName *)

Definition Delete (name : string) (w : World) : go (option error) * World :=
  match cluster.Delete (Namespace addon) name w with
  | Ok w' => (Return None, w')
  | Err e => (Return (Some e), w)
  | Abort => (Panic, w)
  end.

Definition findWorkflowByName (namespace name : string) (w : World)
  : go (option Unstructured * option error) :=
  match cluster.Get namespace name w with
  | Ok found => Return (Some found, None)
  | Err e => if cluster.IsNotFound e then Return (None, None) else Return (None, Some e)
  | Abort => Panic
  end.

(** *** deleteCollisionWorkflows *)

(** The first loop: the most recently started workflow of this addon.
    The loop variables are [mostRecentWorkflowTime] and
    [mostRecentWorkflow], [None] being the zero [Unstructured]. *)
Fixpoint mostRecent (items : list Unstructured) (mostRecentWorkflowTime : Z)
  (mostRecentWorkflow : option Unstructured)
  : loop (bool * option error) (Z * option Unstructured) :=
  match items with
  | [] => Next (mostRecentWorkflowTime, mostRecentWorkflow)
  | workflow :: items =>
      if strings.Contains (GetName workflow) (Name addon) then
        if isNil (workflow !! "status") then Break (false, None)
        else
          match workflow !! "status" with
          | Some (VMap status) =>
              match status !! "startedAt" with
              | Some (VString startedAt) =>
                  match parseRFC3339 startedAt with
                  | None => Break (false, Some "parsing time")
                  | Some t =>
                      if negb (t <? mostRecentWorkflowTime)%Z
                      then mostRecent items t (Some workflow)
                      else mostRecent items mostRecentWorkflowTime mostRecentWorkflow
                  end
              | _ => Crash
              end
          | _ => Crash
          end
      else mostRecent items mostRecentWorkflowTime mostRecentWorkflow
  end.

(** [status.phase] read through the two unchecked assertions. *)
Definition phaseOf (workflow : Unstructured) : option string :=
  match workflow !! "status" with
  | Some (VMap status) =>
      match status !! "phase" with
      | Some (VString phase) => Some phase
      | _ => None
      end
  | _ => None
  end.

(** The second loop; the loop variable is [deleted]. *)
Fixpoint deleteOld (items : list Unstructured) (deleted : bool) (w : World)
  : go bool * World :=
  match items with
  | [] => (Return deleted, w)
  | workflow :: items =>
      match phaseOf workflow with
      | Some phase =>
          if strings.Contains (GetName workflow) (Checksum addon)
             && negb (String.eqb phase "Pending")
          then
            match Delete (GetName workflow) w with
            | (Return _, w) => deleteOld items true w
            | (Panic, w) => (Panic, w)
            end
          else deleteOld items deleted w
      | None => (Panic, w)
      end
  end.

Definition deleteCollisionWorkflows (wfv1 : Unstructured) (w : World)
  : go (bool * option error) * World :=
  match cluster.List (Namespace addon) w with
  | Err e => (Return (false, Some ("failed to list workflows. " +:+ e)), w)
  | Abort => (Panic, w)
  | Ok workflows =>
      match mostRecent workflows 0 None with
      | Break r => (Return r, w)
      | Crash => (Panic, w)
      | Next (_, None) => (Return (false, None), w)
      | Next (_, Some mostRecentWorkflow) =>
          if negb (strings.Contains (GetName mostRecentWorkflow) (Checksum addon)) then
            match deleteOld workflows false w with
            | (Return deleted, w) => (Return (deleted, None), w)
            | (Panic, w) => (Panic, w)
            end
          else (Return (false, None), w)
      end
  end.

(** *** submit *)

(** [v == s] for an interface value [v] read from a map and a string
    constant [s]. *)
Definition isString (v : option value) (s : string) : bool :=
  match v with
  | Some (VString s') => String.eqb s' s
  | _ => false
  end.

(** The block "validate workflow status" at the end of [submit]. *)
Definition workflowPhase (workflow : Unstructured) : ApplicationAssemblyPhase :=
  let '(status, ok) :=
    match workflow !! "status" with
    | Some (VMap status) => (status, true)
    | _ => (∅, false)
    end in
  if ok && isString (status !! "phase") "Succeeded" then Succeeded
  else if ok && isString (status !! "phase") "Failed" then Failed
  else Pending.

(** The loop that marks the references to an addon as non-controlling,
    writing through the pointer [ref.Controller]: a nil pointer
    panics. *)
Fixpoint notControlling (refs : list owner.OwnerReference) : go (list owner.OwnerReference) :=
  match refs with
  | [] => Return []
  | ref :: refs =>
      if String.eqb (strings.ToLower (owner.Kind ref)) "addon" then
        match owner.Controller ref with
        | Some _ =>
            match notControlling refs with
            | Return refs =>
                Return ({| owner.APIVersion := owner.APIVersion ref;
                           owner.Kind := owner.Kind ref;
                           owner.RefName := owner.RefName ref;
                           owner.RefUID := owner.RefUID ref;
                           owner.Controller := Some false;
                           owner.BlockOwnerDeletion := owner.BlockOwnerDeletion ref |} :: refs)
            | Panic => Panic
            end
        | None => Panic
        end
      else
        match notControlling refs with
        | Return refs => Return (ref :: refs)
        | Panic => Panic
        end
  end.

(** The branch of [submit] that creates the workflow. *)
Definition create (wp : Unstructured) (w : World)
  : go (ApplicationAssemblyPhase * option error) * World :=
  let wfv1 := wp in
  let wfv1 := SetGroupVersionKind "argoproj.io" "v1alpha1" "Workflow" wfv1 in
  let wfv1 := SetNamespace (GetNamespace wp) wfv1 in
  let wfv1 := SetName (GetName wp) wfv1 in
  match owner.SetControllerReference
          (owner.NewControllerRef (addonGroup +:+ "/v1alpha1") "Addon" (Name addon) (UID addon))
          wfv1 with
  | Err err => (Return (Failed, Some err), w)
  | Abort => (Panic, w)
  | Ok wfv1 =>
      match notControlling (owner.GetOwnerReferences wfv1) with
      | Panic => (Panic, w)
      | Return ownerReferences =>
          let wfv1 := owner.SetOwnerReferences ownerReferences wfv1 in
          match cluster.Create wfv1 w with
          | Err err => (Return (Failed, Some err), w)
          | Abort => (Panic, w)
          | Ok w =>
              (Return (Pending, None),
               cluster.Event {| EventType := "Normal"; EventReason := "Created";
                                EventMessage := "Created Workflow " +:+ GetName wp +:+ "/"
                                                  +:+ GetNamespace wp |} w)
          end
      end
  end.

(** The end of [submit]: the live status of the workflow that exists. *)
Definition observe (wfv1 : Unstructured) (w : World)
  : go (ApplicationAssemblyPhase * option error) * World :=
  match cluster.Get (GetNamespace wfv1) (GetName wfv1) w with
  | Err err => (Return (Failed, Some ("could not find workflow. " +:+ err)), w)
  | Abort => (Panic, w)
  | Ok workflow => (Return (workflowPhase workflow, None), w)
  end.

Definition submit (wp : Unstructured) (w : World)
  : go (ApplicationAssemblyPhase * option error) * World :=
  match findWorkflowByName (GetNamespace wp) (GetName wp) w with
  | Panic => (Panic, w)
  | Return (_, Some err) => (Return (Failed, Some err), w)
  | Return (Some wfv1, None) =>
      match deleteCollisionWorkflows wfv1 w with
      | (Panic, w) => (Panic, w)
      | (Return (_, Some err), w) => (Return (Failed, Some err), w)
      | (Return (true, None), w) => (Return (Pending, None), w)
      | (Return (false, None), w) => observe wfv1 w
      end
  | Return (None, None) => create wp w
  end.

(** *** Install *)

Definition Install (wt : WorkflowType) (name : string)
  (additionalConfigs dataParams : list (string * string)) (w : World)
  : go (ApplicationAssemblyPhase * option error) * World :=
  match parse wt name with
  | Err err => (Return (Failed, Some ("invalid workflow. " +:+ err)), w)
  | Abort => (Panic, w)
  | Ok wp =>
      match configureGlobalWFParameters additionalConfigs dataParams wp with
      | Panic => (Panic, w)
      | Return (false, _) => (Return (Failed, Some "invalid workflow parameter"), w)
      | Return (true, wp) =>
          match configureWorkflowArtifacts wp wt with
          | Err err => (Return (Failed, Some err), w)
          | Abort => (Panic, w)
          | Ok wp => submit wp w
          end
      end
  end.

End Workflows.

(** ** Instances of the parameters, for concrete runs *)

(** RFC3339 timestamps of the form [YYYY-MM-DDThh:mm:ssZ]: whole seconds,
    UTC.  The instant is counted in seconds from the zero [time.Time],
    0001-01-01T00:00:00Z. *)
Module rfc3339.

#[local] Open Scope Z_scope.

Definition digit (c : ascii) : option Z :=
  let n := Z.of_nat (nat_of_ascii c) in
  if (48 <=? n) && (n <=? 57) then Some (n - 48) else None.

Fixpoint number (cs : list ascii) (acc : Z) : option Z :=
  match cs with
  | [] => Some acc
  | c :: cs => d ← digit c; number cs (10 * acc + d)
  end.

Definition leap (y : Z) : bool :=
  (y mod 4 =? 0) && (negb (y mod 100 =? 0) || (y mod 400 =? 0)).

Definition daysIn (y m : Z) : Z :=
  if m =? 2 then (if leap y then 29 else 28)
  else if (m =? 4) || (m =? 6) || (m =? 9) || (m =? 11) then 30
  else 31.

Fixpoint daysBefore (y : Z) (m : nat) : Z :=
  match m with
  | O => 0
  | S m' => daysBefore y m' + daysIn y (Z.of_nat m)
  end.

Definition daysBeforeYear (y : Z) : Z :=
  365 * (y - 1) + (y - 1) / 4 - (y - 1) / 100 + (y - 1) / 400.

Definition parse (s : string) : option Z :=
  match list_ascii_of_string s with
  | [y1; y2; y3; y4; "-"%char; m1; m2; "-"%char; d1; d2; "T"%char;
     h1; h2; ":"%char; n1; n2; ":"%char; s1; s2; "Z"%char] =>
      y ← number [y1; y2; y3; y4] 0;
      m ← number [m1; m2] 0;
      d ← number [d1; d2] 0;
      h ← number [h1; h2] 0;
      n ← number [n1; n2] 0;
      sec ← number [s1; s2] 0;
      if (1 <=? m) && (m <=? 12) && (1 <=? d) && (d <=? daysIn y m)
         && (h <? 24) && (n <? 60) && (sec <? 60)
      then Some ((daysBeforeYear y + daysBefore y (Z.to_nat (m - 1)) + (d - 1)) * 86400
                 + h * 3600 + n * 60 + sec)
      else None
  | _ => None
  end.

End rfc3339.

(** The fragment of YAML made of flat block mappings of plain string
    scalars, one [key: value] per line.  [marshal] writes the keys in
    byte order, as [yaml.Marshal] does; outside the fragment both
    functions answer [None]. *)
Module flatyaml.

Definition newline : string := String "010" "".

(** The first occurrence of [": "] splits a line into key and value. *)
Fixpoint entry (key line : string) : option (string * string) :=
  match line with
  | EmptyString => None
  | String c rest =>
      if String.prefix ": " line then Some (key, String.substring 2 (String.length line - 2) line)
      else entry (key +:+ String c "") rest
  end.

Fixpoint entries (lines : list string) (m : gmap string value) : option (gmap string value) :=
  match lines with
  | [] => Some m
  | line :: lines =>
      if String.eqb line "" then entries lines m
      else kv ← entry "" line; entries lines (<[kv.1 := VString kv.2]> m)
  end.

Definition unmarshal (s : string) : option (gmap string value) :=
  entries (strings.Split s newline) ∅.

Fixpoint insertByKey (kv : string * string) (l : list (string * string)) : list (string * string) :=
  match l with
  | [] => [kv]
  | kv' :: l' => if String.leb kv.1 kv'.1 then kv :: l else kv' :: insertByKey kv l'
  end.

Definition scalar (kv : string * value) : option (string * string) :=
  match kv.2 with
  | VString s => Some (kv.1, s)
  | _ => None
  end.

Definition marshal (m : gmap string value) : option string :=
  kvs ← mapM scalar (map_to_list m);
  Some (foldr (fun kv out => kv.1 +:+ ": " +:+ kv.2 +:+ newline +:+ out) ""
          (foldr insertByKey [] kvs)).

End flatyaml.

(** ** A concrete addon *)

Module example.

Definition addon : Addon :=
  {| Name := "addon-1";
     Namespace := "addon-manager-system";
     UID := "0b5c8a4e";
     PkgVersion := "v1.2.3";
     Params := {| ParamsNamespace := "ns1";
                  Context := {| ClusterName := "c1";
                                ClusterRegion := "us-west-2";
                                AdditionalConfigs := {[ "zone" := "a" ]} |};
                  Data := {[ "replicas" := "2"; "tier" := "web" ]} |};
     Checksum := "bbbb" |}.

Definition workflowType : WorkflowType :=
  {| Template := "spec: {}"; Role := "" |}.

Definition addonGroup : string := "addonmgr.keikoproj.io".

(** An execution as the backend reports it. *)
Definition execution (name startedAt phase : string) : Unstructured :=
  {[ "metadata" := VMap {[ "namespace" := VString (Namespace addon); "name" := VString name ]};
     "status" := VMap {[ "startedAt" := VString startedAt; "phase" := VString phase ]} ]}.

(** Two executions of the addon: the older one is named with the checksum
    [aaaa], the newer one with the checksum [bbbb]. *)
Definition wfA : Unstructured :=
  execution "addon-1-prereqs-aaaa-wf" "2020-01-01T00:00:00Z" "Succeeded".
Definition wfB : Unstructured :=
  execution "addon-1-prereqs-bbbb-wf" "2020-01-02T00:00:00Z" "Succeeded".
Definition wfA_pending : Unstructured :=
  execution "addon-1-prereqs-aaaa-wf" "2020-01-01T00:00:00Z" "Pending".

(** An object of the same namespace that is no execution of the addon and
    has no status block yet. *)
Definition unrelated : Unstructured :=
  {[ "metadata" := VMap {[ "namespace" := VString (Namespace addon);
                          "name" := VString "backup-job" ]} ]}.

(** The addon after its spec went back to the content of checksum [aaaa]. *)
Definition reverted : Addon :=
  {| Name := Name addon; Namespace := Namespace addon; UID := UID addon;
     PkgVersion := PkgVersion addon; Params := Params addon; Checksum := "aaaa" |}.

Definition world (objs : list Unstructured) : World :=
  {| objects := objs; events := [] |}.

(** A rendered job of the addon: its name carries the current checksum. *)
Definition rendered : Unstructured :=
  {[ "apiVersion" := VString "argoproj.io/v1alpha1";
     "kind" := VString "Workflow";
     "metadata" := VMap {[ "namespace" := VString (Namespace addon);
                          "name" := VString "addon-1-prereqs-bbbb-wf" ]};
     "spec" := VMap {[ "ttlSecondsAfterFinished" := VInt64 259200;
                      "templates" := VSlice [] ]} ]}.




Definition withRole : WorkflowType :=
  {| Template := "spec: {}"; Role := "arn:aws:iam::123456789012:role/addon-1" |}.

(** An artifact with the given [raw.data]. *)
Definition artifact (data : string) : gmap string value :=
  {[ "name" := VString "doc"; "raw" := VMap {[ "data" := VString data ]} ]}.

(** Two documents and the separator between them. *)
Definition twoDocuments : string :=
  "kind: ConfigMap" +:+ flatyaml.newline +:+ "note: settings" +:+ flatyaml.newline
  +:+ separator
  +:+ "kind: Secret" +:+ flatyaml.newline +:+ "note: token" +:+ flatyaml.newline.

(** One document whose last scalar ends in three dashes; the text has no
    final line feed, so that it does not contain the separator. *)
Definition dashes : string :=
  "kind: ConfigMap" +:+ flatyaml.newline +:+ "note: x---".

End example.

(** ** Notions used to state the properties *)

(** The phase string the backend reports for an execution, if any. *)
Definition backendPhase (workflow : Unstructured) : option value :=
  match workflow !! "status" with
  | Some (VMap status) => status !! "phase"
  | _ => None
  end.

(** The executions of a world that carry a given namespace and name. *)
Definition executions (namespace name : string) (w : World) : list Unstructured :=
  List.filter (cluster.keyed namespace name) (objects w).

(** The entries of [spec.arguments.parameters] of a workflow. *)
Definition parametersOf (wf : Unstructured) : list value :=
  match unstructured.NestedFieldNoCopy wf ["spec"; "arguments"; "parameters"] with
  | unstructured.Found (VSlice l) => l
  | _ => []
  end.

(** The key under which the API server holds an object. *)
Definition key (o : Unstructured) : string * string :=
  (unstructured.GetNamespace o, unstructured.GetName o).

(** The API server holds at most one object under a key. *)
Definition uniquelyKeyed (w : World) : Prop :=
  NoDup (key <$> objects w).

(** What the second loop of the collision resolver deletes: the name
    contains the addon's current checksum and the phase is not Pending. *)
Definition stale (addon : Addon) (workflow : Unstructured) : bool :=
  match phaseOf workflow with
  | Some phase =>
      strings.Contains (unstructured.GetName workflow) (Checksum addon)
      && negb (String.eqb phase "Pending")
  | None => false
  end.

(** Whether an object carries the key of a stale execution of the list. *)
Definition removed (addon : Addon) (items : list Unstructured) (o : Unstructured) : bool :=
  existsb (fun workflow =>
             stale addon workflow
             && cluster.keyed (Namespace addon) (unstructured.GetName workflow) o) items.

(** The shapes under which the parameter injector gets to its write-back:
    [spec] is a map, [spec.arguments] is nil or a map, and
    [spec.arguments.parameters] is nil or a list. *)
Definition injectable (wf : Unstructured) : bool :=
  match wf !! "spec" with
  | Some (VMap spec) =>
      match spec !! "arguments" with
      | None | Some VNil => true
      | Some (VMap arguments) =>
          match arguments !! "parameters" with
          | None | Some VNil | Some (VSlice _) => true
          | Some _ => false
          end
      | Some _ => false
      end
  | _ => false
  end.

(** The map a field holds, the empty map when it holds none. *)
Definition orEmpty (v : option value) : gmap string value :=
  match v with
  | Some (VMap m) => m
  | _ => ∅
  end.

(** The four default labels, merged into a map of labels. *)
Definition defaultLabels (addonGroup : string) (addon : Addon) (labels : gmap string value)
  : gmap string value :=
  <["app.kubernetes.io/managed-by" := VString addonGroup]>
    (<["app.kubernetes.io/part-of" := VString (Name addon)]>
       (<["app.kubernetes.io/version" := VString (PkgVersion addon)]>
          (<["app.kubernetes.io/name" := VString (Name addon)]> labels))).


(** The shapes under which the role annotation can be written: [spec] and
    [spec.template] are absent or maps. *)
Definition annotatable (resource : gmap string value) : bool :=
  match resource !! "spec" with
  | None => true
  | Some (VMap spec) =>
      match spec !! "template" with
      | None | Some (VMap _) => true
      | Some _ => false
      end
  | Some _ => false
  end.

(** Whether the first loop of the collision resolver looks at an
    execution. *)
Definition related (addon : Addon) (workflow : Unstructured) : bool :=
  strings.Contains (unstructured.GetName workflow) (Name addon).

(** Whether a document is free of the separator. *)
Definition whole (d : string) : bool := negb (strings.Contains d separator).

(** A document of an artifact, parsed and post-processed: what
    [processResource] hands to [yaml.Marshal]. *)
Definition patched (yamlUnmarshal : string -> option (gmap string value))
  (addonGroup : string) (addon : Addon) (wt : WorkflowType) (obj : string)
  : outcome (gmap string value) :=
  match yamlUnmarshal obj with
  | None => Err ("unable to unmarshall artifact: " +:+ obj)
  | Some resource => patchResource addonGroup addon wt resource
  end.

(** The [raw.data] of an artifact, as [processArtifacts] reads it. *)
Definition rawData (artifact : gmap string value) : string :=
  unstructured.getNestedString artifact ["raw"; "data"].

(** When an execution was started, as the first loop of the collision
    resolver reads it. *)
Definition started (parseRFC3339 : string -> option Z) (workflow : Unstructured) : option Z :=
  match workflow !! "status" with
  | Some (VMap status) =>
      match status !! "startedAt" with
      | Some (VString startedAt) => parseRFC3339 startedAt
      | _ => None
      end
  | _ => None
  end.

(** The objects that carry none of the given names in a namespace. *)
Definition without (namespace : string) (names : list string) (objs : list Unstructured)
  : list Unstructured :=
  List.filter (fun o => negb (existsb (fun name => cluster.keyed namespace name o) names)) objs.

(** Whether [metadata] can be written to: it is absent or a map. *)
Definition writable (u : Unstructured) : bool :=
  match u !! "metadata" with
  | None | Some (VMap _) => true
  | Some _ => false
  end.

(** A step object that brings no artifacts: [arguments.artifacts] is
    absent or nil, or [arguments] is no map. *)
Definition noArtifacts (step : value) : bool :=
  match step with
  | VMap step =>
      match unstructured.NestedFieldNoCopy step ["arguments"; "artifacts"] with
      | unstructured.Found VNil | unstructured.Missing | unstructured.Mismatch => true
      | unstructured.Found _ => false
      end
  | _ => false
  end.

(** A list of steps none of which brings artifacts. *)
Definition plainSteps (steps : value) : bool :=
  match steps with
  | VSlice steps => forallb noArtifacts steps
  | _ => false
  end.

(** A template without steps, or whose steps bring no artifacts. *)
Definition plainTemplate (template : value) : bool :=
  match template with
  | VMap template =>
      match template !! "steps" with
      | None => true
      | Some (VSlice allSteps) => forallb plainSteps allSteps
      | Some _ => false
      end
  | _ => false
  end.

(** * Properties *)

Import unstructured.

(** ** Status translation *)

(** C9: the phase of an execution is a total function of the phase string
    the backend reports: "Succeeded" gives [Succeeded], "Failed" gives
    [Failed], anything else (another string, a value that is no string, no
    phase or no status block) gives [Pending]; reading it neither panics
    nor changes the world. *)
Theorem workflowPhase_translation (workflow : Unstructured) :
  (backendPhase workflow = Some (VString "Succeeded") -> workflowPhase workflow = Succeeded) /\
  (backendPhase workflow = Some (VString "Failed") -> workflowPhase workflow = Failed) /\
  (backendPhase workflow <> Some (VString "Succeeded") ->
   backendPhase workflow <> Some (VString "Failed") ->
   workflowPhase workflow = Pending) /\
  (forall (wfv1 : Unstructured) (w : World),
     cluster.Get (GetNamespace wfv1) (GetName wfv1) w = Ok workflow ->
     observe wfv1 w = (Return (workflowPhase workflow, None), w)).
Proof.
  unfold backendPhase, workflowPhase.
  repeat split.
  - destruct (workflow !! "status") as [[]|]; try discriminate.
    intros ->. reflexivity.
  - destruct (workflow !! "status") as [[]|]; try discriminate.
    intros ->. reflexivity.
  - destruct (workflow !! "status") as [[| | | | | |status]|]; try reflexivity.
    destruct (status !! "phase") as [[| | | |s| |]|]; try reflexivity.
    simpl. intros HS HF.
    destruct (String.eqb_spec s "Succeeded") as [->|_]; [congruence|].
    destruct (String.eqb_spec s "Failed") as [->|_]; [congruence|].
    reflexivity.
  - intros wfv1 w Hget. unfold observe. rewrite Hget. reflexivity.
Qed.

(** The five inputs of the spec: "Succeeded", "Failed", the empty string,
    an unknown string and no phase at all. *)
Lemma workflowPhase_translation_witness :
  let reported (phase : value) : Unstructured := {[ "status" := VMap {[ "phase" := phase ]} ]} in
  workflowPhase (reported (VString "Succeeded")) = Succeeded /\
  workflowPhase (reported (VString "Failed")) = Failed /\
  workflowPhase (reported (VString "")) = Pending /\
  workflowPhase (reported (VString "unknown-string")) = Pending /\
  workflowPhase (reported VNil) = Pending /\
  workflowPhase ∅ = Pending.
Proof.
  intros reported.
  refine (conj _ (conj _ (conj _ (conj _ (conj _ _))))).
  - apply (proj1 (workflowPhase_translation _)). reflexivity.
  - apply (proj1 (proj2 (workflowPhase_translation _))). reflexivity.
  - apply (proj1 (proj2 (proj2 (workflowPhase_translation _)))); vm_compute; discriminate.
  - apply (proj1 (proj2 (proj2 (workflowPhase_translation _)))); vm_compute; discriminate.
  - apply (proj1 (proj2 (proj2 (workflowPhase_translation _)))); vm_compute; discriminate.
  - apply (proj1 (proj2 (proj2 (workflowPhase_translation _)))); vm_compute; discriminate.
Defined.

(** ** Template rendering *)

Definition ttl : string := "ttlSecondsAfterFinished".

(** C3: when the renderer succeeds, the template parsed to a document with
    a [spec] map; the rendered [spec.ttlSecondsAfterFinished] is 259200
    where the template has none (no key, or a null), and is the
    template's value where it has one, zero included; every other field of
    [spec] is the template's. *)
Theorem parse_ttl_default (yamlUnmarshal : string -> option (gmap string value))
  (addon : Addon) (wt : WorkflowType) (name : string) (wf : Unstructured) :
  parse yamlUnmarshal addon wt name = Ok wf ->
  exists data spec rendered,
    yamlUnmarshal (Template wt) = Some data /\
    data !! "spec" = Some (VMap spec) /\
    wf !! "spec" = Some (VMap rendered) /\
    (isNil (spec !! ttl) = true -> rendered !! ttl = Some (VInt64 259200)) /\
    (forall v, spec !! ttl = Some v -> v <> VNil -> rendered !! ttl = Some v) /\
    (forall k, k <> ttl -> rendered !! k = spec !! k).
Proof.
  unfold parse. intros Hparse.
  destruct (yamlUnmarshal (Template wt)) as [data|] eqn:Hdata; [|discriminate].
  destruct (data !! "spec") as [[| | | | | |spec]|] eqn:Hspec; try discriminate.
  injection Hparse as <-.
  exists data, spec. eexists. split; [reflexivity|]. split; [exact Hspec|].
  split; [apply lookup_insert_eq|]. fold ttl.
  destruct (isNil (spec !! ttl)) eqn:Hnil.
  - split; [intros _; apply lookup_insert_eq|]. split.
    + intros v Hv Hne. rewrite Hv in Hnil. destruct v; done.
    + intros k Hk. by apply lookup_insert_ne.
  - split; [discriminate|]. split; [auto|reflexivity].
Qed.

(** A template without the field is rendered with 259200; a template that
    says 0 keeps its 0. *)
Lemma parse_ttl_default_witness :
  let absent (_ : string) : option (gmap string value) :=
    Some {[ "spec" := VMap {[ "entrypoint" := VString "main" ]} ]} in
  let zero (_ : string) : option (gmap string value) :=
    Some {[ "spec" := VMap {[ ttl := VFloat64 0 ]} ]} in
  (exists wf rendered,
     parse absent example.addon example.workflowType "addon-1-prereqs-abc-wf" = Ok wf /\
     wf !! "spec" = Some (VMap rendered) /\ rendered !! ttl = Some (VInt64 259200)) /\
  (exists wf rendered,
     parse zero example.addon example.workflowType "addon-1-prereqs-abc-wf" = Ok wf /\
     wf !! "spec" = Some (VMap rendered) /\ rendered !! ttl = Some (VFloat64 0)).
Proof.
  intros absent zero. split.
  - destruct (parse_ttl_default absent example.addon example.workflowType
                "addon-1-prereqs-abc-wf" _ eq_refl)
      as (data & spec & rendered & Hdata & Hspec & Hwf & Hdefault & _).
    eexists _, rendered. split; [reflexivity|]. split; [exact Hwf|].
    apply Hdefault. injection Hdata as <-. vm_compute in Hspec. injection Hspec as <-.
    reflexivity.
  - destruct (parse_ttl_default zero example.addon example.workflowType
                "addon-1-prereqs-abc-wf" _ eq_refl)
      as (data & spec & rendered & Hdata & Hspec & Hwf & _ & Hkeep & _).
    eexists _, rendered. split; [reflexivity|]. split; [exact Hwf|].
    apply Hkeep; [|discriminate]. injection Hdata as <-. vm_compute in Hspec.
    injection Hspec as <-. reflexivity.
Defined.

(** ** Collision resolution *)

Section Collisions.

Variable parseRFC3339 : string -> option Z.
Variable addon : Addon.

(** Lemma: the first loop skips the executions whose name does not contain
    the addon's name, whatever their shape. *)
Lemma mostRecent_related (items : list Unstructured) (t : Z) (m : option Unstructured) :
  mostRecent parseRFC3339 addon items t m
  = mostRecent parseRFC3339 addon (List.filter (related addon) items) t m.
Proof.
  revert t m. induction items as [|workflow items IH]; intros t m; [reflexivity|].
  simpl. unfold related at 1.
  destruct (strings.Contains (GetName workflow) (Name addon)) eqn:Hrel; [|apply IH].
  simpl. rewrite Hrel.
  destruct (isNil (workflow !! "status")); [reflexivity|].
  destruct (workflow !! "status") as [[| | | | | |status]|]; try reflexivity.
  destruct (status !! "startedAt") as [[| | | |startedAt| |]|]; try reflexivity.
  destruct (parseRFC3339 startedAt) as [t'|]; [|reflexivity].
  destruct (negb (t' <? t)%Z); apply IH.
Qed.

(** Lemma: [Delete] always returns, and leaves the executions that do not
    carry the name in the addon's namespace; its error is the only trace of
    a name that was not there. *)
Lemma Delete_objects (name : string) (w : World) :
  exists err,
    Delete addon name w
    = (Return err,
       {| objects := List.filter (fun o => negb (cluster.keyed (Namespace addon) name o)) (objects w);
          events := events w |}).
Proof.
  unfold Delete, cluster.Delete.
  destruct (existsb _ (objects w)) eqn:Hex; [by eexists|].
  exists (Some cluster.NotFound). f_equal. destruct w as [objs evs]. simpl in *. f_equal.
  symmetry. induction objs as [|o objs IH]; [reflexivity|].
  cbn in Hex |- *. apply orb_false_iff in Hex as [-> Hex]. cbn. by rewrite IH.
Qed.

(** Lemma: the second loop panics at the first execution whose phase it
    cannot read. *)
Lemma deleteOld_panics (items : list Unstructured) (deleted : bool) (w : World) :
  Exists (fun workflow => phaseOf workflow = None) items ->
  (deleteOld addon items deleted w).1 = Panic.
Proof.
  intros Hex. revert deleted w.
  induction Hex as [workflow items Hnone|workflow items _ IH]; intros deleted w; simpl.
  - by rewrite Hnone.
  - destruct (phaseOf workflow) as [phase|]; [|reflexivity].
    destruct (_ && _); [|apply IH].
    destruct (Delete_objects (GetName workflow) w) as [err ->]. apply IH.
Qed.

End Collisions.

(** C10: the first loop of the collision resolver only looks at the
    executions whose name contains the addon's name, so its early return
    for a missing status block does not cover the others; the second loop
    reads [status] and [status.phase] of every listed execution through
    unchecked assertions.  Hence, once the first loop has settled on a
    most recent execution whose name lacks the current checksum, a listed
    execution of another name without a status block, or with a phase that
    is no string, makes the resolver panic instead of returning an
    error. *)
Theorem deleteCollisionWorkflows_panics (parseRFC3339 : string -> option Z) (addon : Addon)
  (wfv1 : Unstructured) (w : World) (workflows : list Unstructured) (t : Z)
  (mostRecentWorkflow unrelated : Unstructured) :
  cluster.List (Namespace addon) w = Ok workflows ->
  mostRecent parseRFC3339 addon workflows 0 None = Next (t, Some mostRecentWorkflow) ->
  strings.Contains (GetName mostRecentWorkflow) (Checksum addon) = false ->
  unrelated ∈ workflows ->
  related addon unrelated = false ->
  phaseOf unrelated = None ->
  (mostRecent parseRFC3339 addon workflows 0 None
   = mostRecent parseRFC3339 addon (List.filter (related addon) workflows) 0 None) /\
  (unrelated ∉ List.filter (related addon) workflows) /\
  (deleteCollisionWorkflows parseRFC3339 addon wfv1 w).1 = Panic.
Proof.
  intros Hlist Hrecent Hsum Hin Hrel Hphase.
  split; [apply mostRecent_related|]. split.
  - intros Hin'. apply list_elem_of_In in Hin'.
    apply List.filter_In in Hin' as [_ Hrel']. congruence.
  - unfold deleteCollisionWorkflows. rewrite Hlist, Hrecent, Hsum. simpl.
    assert (Hex : Exists (fun workflow => phaseOf workflow = None) workflows)
      by (apply Exists_exists; eauto).
    pose proof (deleteOld_panics addon workflows false w Hex) as Hpanic.
    destruct (deleteOld addon workflows false w) as [[deleted|] w'];
      [discriminate Hpanic|reflexivity].
Qed.

(** A namespace with an execution of the addon named with an older
    checksum and a job without a status block. *)
Lemma deleteCollisionWorkflows_panics_witness :
  (deleteCollisionWorkflows rfc3339.parse example.addon example.wfA
     (example.world [example.wfA; example.unrelated])).1 = Panic.
Proof.
  refine (proj2 (proj2 (deleteCollisionWorkflows_panics rfc3339.parse example.addon example.wfA
    (example.world [example.wfA; example.unrelated])
    [example.wfA; example.unrelated] _ example.wfA example.unrelated _ _ _ _ _ _))).
  - vm_compute. reflexivity.
  - vm_compute. reflexivity.
  - vm_compute. reflexivity.
  - apply list_elem_of_In. right. left. reflexivity.
  - vm_compute. reflexivity.
  - vm_compute. reflexivity.
Defined.

Section Resolution.

Variable parseRFC3339 : string -> option Z.
Variable addon : Addon.

Lemma filter_all {A} (f : A -> bool) (l : list A) :
  (forall x, f x = true) -> List.filter f l = l.
Proof.
  intros Hf. induction l as [|x l IH]; [reflexivity|]. cbn. by rewrite Hf, IH.
Qed.

Lemma filter_twice {A} (f g : A -> bool) (l : list A) :
  List.filter f (List.filter g l) = List.filter (fun x => g x && f x) l.
Proof.
  induction l as [|x l IH]; [reflexivity|]. cbn.
  destruct (g x); cbn; [destruct (f x)|]; by rewrite IH.
Qed.

(** Lemma: when the phase of every listed execution can be read, the second
    loop returns, reports whether the list has a stale execution, and
    leaves the objects that do not carry the key of one. *)
Lemma deleteOld_run (items : list Unstructured) (deleted : bool) (w : World) :
  Forall (fun workflow => is_Some (phaseOf workflow)) items ->
  deleteOld addon items deleted w
  = (Return (deleted || existsb (stale addon) items),
     {| objects := List.filter (fun o => negb (removed addon items o)) (objects w);
        events := events w |}).
Proof.
  intros Hall. revert deleted w.
  induction Hall as [|workflow items [phase Hphase] _ IH]; intros deleted w.
  - cbn. rewrite orb_false_r, filter_all by done. by destruct w.
  - cbn [deleteOld existsb]. unfold stale at 1. rewrite Hphase.
    destruct (_ && _) eqn:Hstale.
    + destruct (Delete_objects addon (GetName workflow) w) as [err ->].
      rewrite IH. cbn [objects events]. rewrite filter_twice, orb_true_r. cbn [orb].
      do 2 f_equal. apply List.filter_ext. intros o. unfold removed. cbn [existsb].
      unfold stale at 2. rewrite Hphase, Hstale. cbn [andb]. by rewrite negb_orb.
    + rewrite IH. cbn [orb]. do 2 f_equal. apply List.filter_ext. intros o.
      unfold removed. cbn [existsb]. unfold stale at 2. by rewrite Hphase, Hstale.
Qed.

Lemma listed (w : World) (workflows : list Unstructured) (workflow : Unstructured) :
  cluster.List (Namespace addon) w = Ok workflows ->
  workflow ∈ workflows ->
  workflow ∈ objects w /\ GetNamespace workflow = Namespace addon.
Proof.
  unfold cluster.List. intros [= <-] Hin.
  apply list_elem_of_In, List.filter_In in Hin as [Hin Hns].
  split; [by apply list_elem_of_In|]. by apply String.eqb_eq.
Qed.

Lemma keyed_key (namespace name : string) (o : Unstructured) :
  cluster.keyed namespace name o = true <-> key o = (namespace, name).
Proof.
  unfold cluster.keyed, key. rewrite andb_true_iff, !String.eqb_eq. split.
  - by intros [-> ->].
  - by intros [= -> ->].
Qed.

Lemma unique_key (w : World) (o1 o2 : Unstructured) :
  uniquelyKeyed w -> o1 ∈ objects w -> o2 ∈ objects w -> key o1 = key o2 -> o1 = o2.
Proof.
  unfold uniquelyKeyed. induction (objects w) as [|o objs IH]; [by intros _ ?%elem_of_nil|].
  rewrite fmap_cons, NoDup_cons. intros [Hfresh Hunique] H1 H2 Hkey.
  apply elem_of_cons in H1 as [->|H1], H2 as [->|H2]; auto.
  - exfalso. apply Hfresh. rewrite Hkey. by apply list_elem_of_fmap_2.
  - exfalso. apply Hfresh. rewrite <- Hkey. by apply list_elem_of_fmap_2.
Qed.

End Resolution.

(** C1, as the code has it: when the most recently started execution of
    the addon lacks the current checksum in its name, and the phase of
    every listed execution can be read, the resolver deletes every listed
    execution whose name contains the current checksum and whose phase is
    not Pending, and nothing but executions under the key of one; it
    reports a deletion exactly when the list has such an execution; an
    execution in phase Pending stays, the API server holding one object per
    key. *)
Theorem deleteCollisionWorkflows_stale (parseRFC3339 : string -> option Z) (addon : Addon)
  (wfv1 : Unstructured) (w : World) (workflows : list Unstructured) (t : Z)
  (mostRecentWorkflow : Unstructured) :
  cluster.List (Namespace addon) w = Ok workflows ->
  mostRecent parseRFC3339 addon workflows 0 None = Next (t, Some mostRecentWorkflow) ->
  strings.Contains (GetName mostRecentWorkflow) (Checksum addon) = false ->
  Forall (fun workflow => is_Some (phaseOf workflow)) workflows ->
  exists (deleted : bool) (w' : World),
    deleteCollisionWorkflows parseRFC3339 addon wfv1 w = (Return (deleted, None), w') /\
    (forall workflow, workflow ∈ workflows -> stale addon workflow = true ->
       workflow ∉ objects w') /\
    (deleted = true <-> exists workflow, workflow ∈ workflows /\ stale addon workflow = true) /\
    (forall o, o ∈ objects w -> o ∉ objects w' ->
       exists workflow, workflow ∈ workflows /\ stale addon workflow = true /\ key o = key workflow) /\
    (uniquelyKeyed w ->
     forall workflow, workflow ∈ workflows -> phaseOf workflow = Some "Pending" ->
       workflow ∈ objects w').
Proof.
  intros Hlist Hrecent Hsum Hall.
  unfold deleteCollisionWorkflows. rewrite Hlist, Hrecent, Hsum. cbn [negb].
  rewrite deleteOld_run by done. cbn [orb].
  eexists _, _. split; [reflexivity|]. cbn [objects].
  assert (Hremoved : forall o, removed addon workflows o = true <->
            exists workflow, workflow ∈ workflows /\ stale addon workflow = true
                             /\ key o = (Namespace addon, GetName workflow)).
  { intros o. unfold removed. rewrite existsb_exists. split.
    - intros (workflow & Hin & [Hstale Hkey]%andb_true_iff).
      exists workflow. rewrite list_elem_of_In. by rewrite keyed_key in Hkey.
    - intros (workflow & Hin & Hstale & Hkey). exists workflow.
      rewrite <- list_elem_of_In. split; [done|]. rewrite Hstale. by apply keyed_key. }
  assert (Hkept : forall o, o ∈ List.filter (fun o => negb (removed addon workflows o)) (objects w)
                            <-> o ∈ objects w /\ removed addon workflows o = false).
  { intros o. rewrite !list_elem_of_In, List.filter_In, negb_true_iff. done. }
  repeat split.
  - intros workflow Hin Hstale [_ Hfalse]%Hkept.
    destruct (listed addon w workflows workflow Hlist Hin) as [_ Hns].
    assert (removed addon workflows workflow = true); [|congruence].
    apply Hremoved. exists workflow. unfold key. by rewrite Hns.
  - intros Hdeleted. apply existsb_exists in Hdeleted as (workflow & Hin & Hstale).
    exists workflow. by rewrite list_elem_of_In.
  - intros (workflow & Hin & Hstale). apply existsb_exists. exists workflow.
    by rewrite <- list_elem_of_In.
  - intros o Hin Hgone.
    destruct (removed addon workflows o) eqn:Hrem; [|by destruct Hgone; apply Hkept].
    apply Hremoved in Hrem as (workflow & Hin' & Hstale & Hkey).
    exists workflow. repeat split; try done.
    destruct (listed addon w workflows workflow Hlist Hin') as [_ Hns].
    unfold key at 2. by rewrite Hns.
  - intros Hunique workflow Hin Hpending.
    destruct (listed addon w workflows workflow Hlist Hin) as [Hobj Hns].
    apply Hkept. split; [done|].
    destruct (removed addon workflows workflow) eqn:Hrem; [|done].
    apply Hremoved in Hrem as (other & Hin' & Hstale & Hkey).
    destruct (listed addon w workflows other Hlist Hin') as [Hobj' Hns'].
    assert (workflow = other) as <-.
    { apply (unique_key w); try done. unfold key at 2. by rewrite Hns'. }
    unfold stale in Hstale. rewrite Hpending in Hstale. cbn in Hstale.
    by rewrite andb_false_r in Hstale.
Qed.

(** The addon is back at checksum [aaaa]; the execution named with [aaaa]
    has succeeded and the one named with [bbbb] was started later: the
    execution named with [aaaa] is deleted and a deletion is reported.
    Were it Pending, it would stay. *)
Lemma deleteCollisionWorkflows_stale_witness :
  deleteCollisionWorkflows rfc3339.parse example.reverted example.wfA
    (example.world [example.wfA; example.wfB])
  = (Return (true, None), example.world [example.wfB]) /\
  deleteCollisionWorkflows rfc3339.parse example.reverted example.wfA_pending
    (example.world [example.wfA_pending; example.wfB])
  = (Return (false, None), example.world [example.wfA_pending; example.wfB]) /\
  exists deleted w',
    deleteCollisionWorkflows rfc3339.parse example.reverted example.wfA
      (example.world [example.wfA; example.wfB]) = (Return (deleted, None), w') /\
    example.wfA ∉ objects w'.
Proof.
  split; [vm_compute; reflexivity|]. split; [vm_compute; reflexivity|].
  destruct (deleteCollisionWorkflows_stale rfc3339.parse example.reverted example.wfA
              (example.world [example.wfA; example.wfB]) [example.wfA; example.wfB]
              63713520000%Z example.wfB)
    as (deleted & w' & Hrun & Hdeleted & _).
  - vm_compute. reflexivity.
  - vm_compute. reflexivity.
  - vm_compute. reflexivity.
  - repeat constructor; vm_compute; eauto.
  - exists deleted, w'. split; [exact Hrun|].
    apply Hdeleted; [apply list_elem_of_In; left; reflexivity|vm_compute; reflexivity].
Defined.

(** C1, as the claim has it, fails: with the execution named with the old
    checksum [aaaa] succeeded, the one named with the current checksum
    [bbbb] started later, the resolver deletes nothing and reports no
    deletion.  Neither does it when the most recent execution lacks the
    current checksum, here [cccc]: it looks for names that contain
    [cccc]. *)
Lemma deleteCollisionWorkflows_old_checksum_kept :
  let w := example.world [example.wfA; example.wfB] in
  let later : Addon :=
    {| Name := Name example.addon; Namespace := Namespace example.addon;
       UID := UID example.addon; PkgVersion := PkgVersion example.addon;
       Params := Params example.addon; Checksum := "cccc" |} in
  Checksum example.addon = "bbbb" /\
  deleteCollisionWorkflows rfc3339.parse example.addon example.wfB w = (Return (false, None), w) /\
  deleteCollisionWorkflows rfc3339.parse later example.wfB w = (Return (false, None), w) /\
  example.wfA ∈ objects w /\
  ~ (exists w', deleteCollisionWorkflows rfc3339.parse example.addon example.wfB w
                = (Return (true, None), w') /\ example.wfA ∉ objects w').
Proof.
  intros w later. split; [reflexivity|].
  assert (Hrun : deleteCollisionWorkflows rfc3339.parse example.addon example.wfB w
                 = (Return (false, None), w)) by (vm_compute; reflexivity).
  split; [exact Hrun|]. split; [vm_compute; reflexivity|].
  split; [apply list_elem_of_In; left; reflexivity|].
  intros (w' & Hrun' & _). rewrite Hrun in Hrun'. discriminate Hrun'.
Qed.

(** ** Submission *)

Section Metadata.

(** Lemma: writing a field of [metadata] leaves the other fields of
    [metadata] as they are read. *)
Lemma metadata_set_other (u : Unstructured) (v : value) (k f : string) :
  k <> f ->
  NestedFieldNoCopy (setNestedField u v ["metadata"; k]) ["metadata"; f]
  = NestedFieldNoCopy u ["metadata"; f].
Proof.
  intros Hne. unfold setNestedField, NestedFieldNoCopy. cbn.
  destruct (u !! "metadata") as [[| | | | | |m]|] eqn:Hmd; cbn; rewrite ?Hmd; try reflexivity.
  - by rewrite lookup_insert_eq, lookup_insert_ne.
  - by rewrite lookup_insert_eq, lookup_insert_ne, lookup_empty.
Qed.

Lemma metadata_remove_other (u : Unstructured) (k f : string) :
  k <> f ->
  NestedFieldNoCopy (RemoveNestedField u ["metadata"; k]) ["metadata"; f]
  = NestedFieldNoCopy u ["metadata"; f].
Proof.
  intros Hne. unfold NestedFieldNoCopy. cbn.
  destruct (u !! "metadata") as [[| | | | | |m]|] eqn:Hmd; cbn; rewrite ?Hmd; try reflexivity.
  by rewrite lookup_insert_eq, lookup_delete_ne.
Qed.

Lemma metadata_set_top (u : Unstructured) (v : value) (k f : string) :
  k <> "metadata" ->
  NestedFieldNoCopy (setNestedField u v [k]) ["metadata"; f]
  = NestedFieldNoCopy u ["metadata"; f].
Proof.
  intros Hne. unfold setNestedField, NestedFieldNoCopy. cbn. by rewrite lookup_insert_ne.
Qed.

Lemma getNestedString_walk (u u' : Unstructured) (fields : list string) :
  NestedFieldNoCopy u fields = NestedFieldNoCopy u' fields ->
  getNestedString u fields = getNestedString u' fields.
Proof. unfold getNestedString, NestedString. by intros ->. Qed.

(** Lemma: a field of [metadata] set to the string it already reads as
    reads the same. *)
Lemma metadata_stamp (u : Unstructured) (f : string) :
  let s := getNestedString u ["metadata"; f] in
  getNestedString
    (if decide (s = "") then RemoveNestedField u ["metadata"; f]
     else setNestedField u (VString s) ["metadata"; f]) ["metadata"; f]
  = s.
Proof.
  cbn zeta. destruct (decide _) as [Hs|Hs].
  - rewrite Hs. unfold getNestedString, NestedString, NestedFieldNoCopy in *. cbn in *.
    destruct (u !! "metadata") as [[| | | | | |m]|] eqn:Hmd; cbn; rewrite ?Hmd; try done.
    by rewrite lookup_insert_eq, lookup_delete_eq.
  - unfold getNestedString, NestedString, NestedFieldNoCopy, setNestedField in *. cbn in *.
    destruct (u !! "metadata") as [[| | | | | |m]|] eqn:Hmd; cbn; rewrite ?Hmd; try done.
    by rewrite !lookup_insert_eq.
Qed.

Lemma key_SetGroupVersionKind (group version kind : string) (u : Unstructured) :
  key (SetGroupVersionKind group version kind u) = key u.
Proof.
  unfold key, GetNamespace, GetName, SetGroupVersionKind.
  f_equal; apply getNestedString_walk; by rewrite !metadata_set_top.
Qed.

Lemma key_SetOwnerReferences (refs : list owner.OwnerReference) (u : Unstructured) :
  key (owner.SetOwnerReferences refs u) = key u.
Proof.
  unfold key, GetNamespace, GetName, owner.SetOwnerReferences.
  destruct refs; f_equal; apply getNestedString_walk;
    by rewrite ?metadata_remove_other, ?metadata_set_other.
Qed.

(** Lemma: stamping an object with the namespace and the name of another
    one gives it that key, when it had that key already. *)
Lemma key_stamp (u : Unstructured) :
  key (SetName (GetName u) (SetNamespace (GetNamespace u) u)) = key u.
Proof.
  assert (Hns : GetNamespace (SetNamespace (GetNamespace u) u) = GetNamespace u)
    by apply metadata_stamp.
  assert (Hname : GetName (SetNamespace (GetNamespace u) u) = GetName u).
  { unfold GetName, SetNamespace. apply getNestedString_walk.
    destruct (decide _); by rewrite ?metadata_remove_other, ?metadata_set_other. }
  unfold key. f_equal.
  - rewrite <- Hns at 2. unfold GetNamespace, SetName. apply getNestedString_walk.
    destruct (decide _); by rewrite ?metadata_remove_other, ?metadata_set_other.
  - rewrite <- Hname. apply metadata_stamp.
Qed.

End Metadata.

Section Submission.

Variable parseRFC3339 : string -> option Z.
Variable addonGroup : string.
Variable addon : Addon.

(** Lemma: once a deletion is recorded, the second loop does not report
    none. *)
Lemma deleteOld_deleted (items : list Unstructured) (w : World) :
  (deleteOld addon items true w).1 <> Return false.
Proof.
  revert w. induction items as [|workflow items IH]; intros w; cbn; [done|].
  destruct (phaseOf workflow) as [phase|]; [|done].
  destruct (_ && _); [|apply IH].
  destruct (Delete_objects addon (GetName workflow) w) as [err ->]. apply IH.
Qed.

(** Lemma: a second loop that reports no deletion has left the world as it
    was. *)
Lemma deleteOld_none (items : list Unstructured) (w w' : World) :
  deleteOld addon items false w = (Return false, w') -> w' = w.
Proof.
  revert w. induction items as [|workflow items IH]; intros w; cbn; [congruence|].
  destruct (phaseOf workflow) as [phase|]; [|done].
  destruct (_ && _); [|apply IH].
  destruct (Delete_objects addon (GetName workflow) w) as [err ->].
  intros Hrun. destruct (deleteOld_deleted items _ (f_equal fst Hrun)).
Qed.

(** Lemma: a collision resolver that reports no deletion has left the
    world as it was. *)
Lemma deleteCollisionWorkflows_none (wfv1 : Unstructured) (w w' : World) (err : option error) :
  deleteCollisionWorkflows parseRFC3339 addon wfv1 w = (Return (false, err), w') -> w' = w.
Proof.
  unfold deleteCollisionWorkflows. destruct (cluster.List _ w) as [workflows| |]; try congruence.
  destruct (mostRecent _ _ workflows 0 None) as [r|[t [mostRecentWorkflow|]]|]; try congruence.
  destruct (negb _); [|congruence].
  destruct (deleteOld addon workflows false w) as [[[]|] w''] eqn:Hrun; try congruence.
  intros [= <- <-]. by apply deleteOld_none in Hrun.
Qed.

(** Lemma: a [create] that returns Pending has added one object, under the
    key of the rendered job, where there was none, and recorded one
    event. *)
Lemma create_Pending (wp : Unstructured) (w w1 : World) (err : option error) :
  create addonGroup addon wp w = (Return (Pending, err), w1) ->
  exists created event,
    key created = key wp /\
    executions (GetNamespace wp) (GetName wp) w = [] /\
    w1 = {| objects := objects w ++ [created]; events := events w ++ [event] |}.
Proof.
  unfold create.
  destruct (owner.SetControllerReference _ _) as [owned| |] eqn:Howned; try congruence.
  destruct (notControlling _) as [ownerReferences|]; try congruence.
  unfold cluster.Create. destruct (existsb _ (objects w)) eqn:Hfree; try congruence.
  intros [= <- <-]. eexists _, _.
  assert (Hkey : key (owner.SetOwnerReferences ownerReferences owned) = key wp).
  { rewrite key_SetOwnerReferences. unfold owner.SetControllerReference in Howned.
    destruct (owner.lastSame _ _ _ _); try discriminate. injection Howned as <-.
    rewrite key_SetOwnerReferences.
    pose proof (key_SetGroupVersionKind "argoproj.io" "v1alpha1" "Workflow" wp) as Hgvk.
    injection Hgvk as Hns Hname. rewrite <- Hns, <- Hname at 1.
    rewrite key_stamp. unfold key. by rewrite Hns, Hname. }
  split; [exact Hkey|]. split; [|reflexivity].
  injection Hkey as Hns Hname. rewrite Hns, Hname in Hfree.
  unfold executions. induction (objects w) as [|o objs IH]; [reflexivity|].
  cbn in Hfree |- *. apply orb_false_iff in Hfree as [-> Hfree]. by apply IH.
Qed.

Lemma find_app_none {A} (f : A -> bool) (l1 l2 : list A) :
  List.filter f l1 = [] -> List.find f (l1 ++ l2) = List.find f l2.
Proof.
  induction l1 as [|x l1 IH]; [reflexivity|]. cbn.
  destruct (f x); [discriminate|apply IH].
Qed.

(** Lemma: what [cluster.Get] returns carries the key it was asked for. *)
Lemma Get_key (namespace name : string) (w : World) (o : Unstructured) :
  cluster.Get namespace name w = Ok o -> o ∈ objects w /\ key o = (namespace, name).
Proof.
  unfold cluster.Get. destruct (List.find _ _) as [o'|] eqn:Hfind; [|discriminate].
  intros [= <-]. apply List.find_some in Hfind as [Hin Hkey].
  split; [by apply list_elem_of_In|by apply keyed_key].
Qed.

End Submission.

(** C2: when an execution with the namespace and name of the rendered job
    exists and the collision resolver reports no deletion, [submit] leaves
    the world as it is (it creates nothing) and returns the translation of
    the status of that execution.  So, after a first [submit] that found no
    such execution and returned Pending, the world holds exactly one
    execution under the key, and a second [submit] of the same job, the
    resolver deleting nothing, returns the translated status of that
    execution and leaves the world, and the single execution, as they
    are. *)
Theorem submit_existing (parseRFC3339 : string -> option Z) (addonGroup : string)
  (addon : Addon) (wp : Unstructured) :
  (forall (w w' : World) (wfv1 : Unstructured),
     cluster.Get (GetNamespace wp) (GetName wp) w = Ok wfv1 ->
     deleteCollisionWorkflows parseRFC3339 addon wfv1 w = (Return (false, None), w') ->
     submit parseRFC3339 addonGroup addon wp w = (Return (workflowPhase wfv1, None), w)) /\
  (forall (w0 w1 : World),
     executions (GetNamespace wp) (GetName wp) w0 = [] ->
     submit parseRFC3339 addonGroup addon wp w0 = (Return (Pending, None), w1) ->
     exists created : Unstructured,
       objects w1 = objects w0 ++ [created] /\
       executions (GetNamespace wp) (GetName wp) w1 = [created] /\
       forall w2 : World,
         deleteCollisionWorkflows parseRFC3339 addon created w1 = (Return (false, None), w2) ->
         submit parseRFC3339 addonGroup addon wp w1
         = (Return (workflowPhase created, None), w1)).
Proof.
  assert (Hexisting : forall (w w' : World) (wfv1 : Unstructured),
    cluster.Get (GetNamespace wp) (GetName wp) w = Ok wfv1 ->
    deleteCollisionWorkflows parseRFC3339 addon wfv1 w = (Return (false, None), w') ->
    submit parseRFC3339 addonGroup addon wp w = (Return (workflowPhase wfv1, None), w)).
  { intros w w' wfv1 Hget Hresolve.
    pose proof (deleteCollisionWorkflows_none _ _ _ _ _ _ Hresolve) as ->.
    unfold submit, findWorkflowByName. rewrite Hget, Hresolve. unfold observe.
    destruct (Get_key _ _ _ _ Hget) as [_ [= -> ->]]. by rewrite Hget. }
  split; [exact Hexisting|].
  intros w0 w1 Hnone Hfirst.
  assert (Hget0 : cluster.Get (GetNamespace wp) (GetName wp) w0 = Err cluster.NotFound).
  { unfold cluster.Get. destruct (List.find _ _) as [o|] eqn:Hfind; [|reflexivity].
    apply List.find_some in Hfind. unfold executions in Hnone.
    assert (Hin : In o []) by (rewrite <- Hnone; by apply List.filter_In). destruct Hin. }
  unfold submit, findWorkflowByName in Hfirst. rewrite Hget0 in Hfirst. cbn in Hfirst.
  apply create_Pending in Hfirst as (created & event & Hkey & _ & ->).
  assert (Hone : executions (GetNamespace wp) (GetName wp)
                   {| objects := objects w0 ++ [created]; events := events w0 ++ [event] |}
                 = [created]).
  { unfold executions in *. cbn. rewrite List.filter_app, Hnone. cbn.
    by rewrite (proj2 (keyed_key _ _ _) Hkey). }
  exists created. split; [reflexivity|]. split; [exact Hone|].
  intros w2 Hresolve. apply (Hexisting _ w2); [|exact Hresolve].
  unfold cluster.Get. cbn. rewrite find_app_none by exact Hnone.
  cbn. by rewrite (proj2 (keyed_key _ _ _) Hkey).
Qed.

(** The rendered job of the addon is submitted twice to a namespace
    without executions: the first call creates the execution, the second
    one finds it without a status block, creates nothing and returns
    Pending. *)
Lemma submit_existing_witness :
  exists (w1 : World) (created : Unstructured),
    submit rfc3339.parse example.addonGroup example.addon example.rendered (example.world [])
    = (Return (Pending, None), w1) /\
    executions (GetNamespace example.rendered) (GetName example.rendered) w1 = [created] /\
    submit rfc3339.parse example.addonGroup example.addon example.rendered w1
    = (Return (workflowPhase created, None), w1) /\
    workflowPhase created = Pending.
Proof.
  destruct (submit rfc3339.parse example.addonGroup example.addon example.rendered
              (example.world [])) as [result w1] eqn:Hfirst.
  vm_compute in Hfirst. injection Hfirst as <- <-.
  match goal with |- context [Build_World ?objs ?evs] => set (w1 := Build_World objs evs) end.
  destruct (proj2 (submit_existing rfc3339.parse example.addonGroup example.addon
                     example.rendered) (example.world []) w1)
    as (created & Hobjects & Hone & Hsecond).
  - reflexivity.
  - vm_compute. reflexivity.
  - cbn in Hobjects. injection Hobjects as <-.
    exists w1. eexists. split; [vm_compute; reflexivity|]. split; [exact Hone|].
    split; [apply (Hsecond w1); vm_compute; reflexivity|vm_compute; reflexivity].
Defined.

(** ** Parameter injection *)

Section Injection.

Variable addon : Addon.

Lemma SetNestedField_three (obj ma mb : gmap string value) (a b c : string) (v : value) :
  obj !! a = Some (VMap ma) ->
  ma !! b = Some (VMap mb) ->
  SetNestedField obj v [a; b; c] = Ok (<[a := VMap (<[b := VMap (<[c := v]> mb)]> ma)]> obj).
Proof. intros Ha Hb. cbn. rewrite Ha. cbn. rewrite Hb. reflexivity. Qed.


(** Lemma: the injector never returns [false]: whatever it is given, the
    write-back of the parameters does not fail. *)
Lemma configureGlobalWFParameters_never_false (additionalConfigs dataParams : list (string * string))
  (wf wf' : Unstructured) :
  configureGlobalWFParameters addon additionalConfigs dataParams wf <> Return (false, wf').
Proof.
  unfold configureGlobalWFParameters, SetNestedSlice.
  destruct (wf !! "spec") as [[| | | | | |spec]|]; try discriminate.
  set (spec' := if isNil (spec !! "arguments") then _ else _).
  destruct (spec' !! "arguments") as [[| | | | | |arguments]|]; try discriminate.
  set (arguments' := if isNil (arguments !! "parameters") then _ else _).
  destruct (arguments' !! "parameters") as [[| | | | |wfParams|]|]; try discriminate.
  erewrite SetNestedField_three by apply lookup_insert_eq. discriminate.
Qed.


End Injection.



(** Lemma: on every workflow whose [spec], [spec.arguments] or
    [spec.arguments.parameters] has another shape, the injector panics. *)
Lemma configureGlobalWFParameters_wrong_shape (addon : Addon)
  (additionalConfigs dataParams : list (string * string)) (wf : Unstructured) :
  injectable wf = false ->
  configureGlobalWFParameters addon additionalConfigs dataParams wf = Panic.
Proof.
  unfold injectable, configureGlobalWFParameters.
  destruct (wf !! "spec") as [[| | | | | |spec]|]; try reflexivity.
  destruct (spec !! "arguments") as [[| | | | | |arguments]|] eqn:Harguments;
    try discriminate; cbn [isNil]; rewrite ?Harguments; try reflexivity.
  destruct (arguments !! "parameters") as [[| | | | |wfParams|]|] eqn:Hparameters;
    try discriminate; cbn [isNil]; rewrite ?Hparameters; reflexivity.
Qed.

(** C8, evaluated on the code: a rendered job with a wrong shape at
    [spec.arguments] or [spec.arguments.parameters] makes the injector, and
    [Install] with it, panic at an unchecked type assertion; the injector
    returns [false] on no input at all, so [Install] never answers
    [Failed] with the error "invalid workflow parameter". *)
Theorem configureGlobalWFParameters_aborts
  (yamlUnmarshal : string -> option (gmap string value))
  (yamlMarshal : gmap string value -> option string)
  (parseRFC3339 : string -> option Z) (addonGroup : string) (addon : Addon)
  (wt : WorkflowType) (name : string) (additionalConfigs dataParams : list (string * string))
  (w : World) (wp : Unstructured) :
  parse yamlUnmarshal addon wt name = Ok wp ->
  injectable wp = false ->
  configureGlobalWFParameters addon additionalConfigs dataParams wp = Panic /\
  Install yamlUnmarshal yamlMarshal parseRFC3339 addonGroup addon wt name
    additionalConfigs dataParams w = (Panic, w) /\
  (forall wf wf' : Unstructured,
     configureGlobalWFParameters addon additionalConfigs dataParams wf <> Return (false, wf')).
Proof.
  intros Hparse Hshape.
  pose proof (configureGlobalWFParameters_wrong_shape addon additionalConfigs dataParams wp Hshape)
    as Hpanic.
  split; [exact Hpanic|]. split.
  - unfold Install. by rewrite Hparse, Hpanic.
  - intros wf wf'. apply configureGlobalWFParameters_never_false.
Qed.

(** A template whose [spec.arguments] is a string, and one whose
    [spec.arguments.parameters] is a map. *)
Lemma configureGlobalWFParameters_aborts_witness :
  let arguments (_ : string) : option (gmap string value) :=
    Some {[ "spec" := VMap {[ "arguments" := VString "none" ]} ]} in
  let parameters (_ : string) : option (gmap string value) :=
    Some {[ "spec" := VMap {[ "arguments" := VMap {[ "parameters" := VMap ∅ ]} ]} ]} in
  let w := example.world [] in
  Install arguments flatyaml.marshal rfc3339.parse example.addonGroup example.addon
    example.workflowType "addon-1-prereqs-bbbb-wf" [] [] w = (Panic, w) /\
  Install parameters flatyaml.marshal rfc3339.parse example.addonGroup example.addon
    example.workflowType "addon-1-prereqs-bbbb-wf" [] [] w = (Panic, w).
Proof.
  intros arguments parameters w. split.
  - refine (proj1 (proj2 (configureGlobalWFParameters_aborts arguments flatyaml.marshal
      rfc3339.parse example.addonGroup example.addon example.workflowType
      "addon-1-prereqs-bbbb-wf" [] [] w _ eq_refl _))).
    vm_compute. reflexivity.
  - refine (proj1 (proj2 (configureGlobalWFParameters_aborts parameters flatyaml.marshal
      rfc3339.parse example.addonGroup example.addon example.workflowType
      "addon-1-prereqs-bbbb-wf" [] [] w _ eq_refl _))).
    vm_compute. reflexivity.
Defined.

(** ** Artifact post-processing *)

(** Simplification of the reads and writes of nested maps. *)
Ltac nested :=
  repeat first
    [ rewrite lookup_insert_eq
    | rewrite lookup_empty
    | rewrite insert_insert_eq
    | match goal with H : _ !! _ = _ |- _ => rewrite H end
    | progress cbn [walk SetNestedField obind found store mapOrNil orEmpty
                    from_option id fst snd] ].

Section Labels.

Variable addonGroup : string.
Variable addon : Addon.

(** Lemma: on a document whose [metadata] is a map, the label step
    returns the document with the default labels merged into
    [metadata.labels]. *)
Lemma addDefaultLabelsToResource_merges (resource metadata : gmap string value) :
  resource !! "metadata" = Some (VMap metadata) ->
  addDefaultLabelsToResource addonGroup addon resource
  = Ok (<["metadata" := VMap (<["labels" :=
          VMap (defaultLabels addonGroup addon (orEmpty (metadata !! "labels")))]> metadata)]>
        resource).
Proof.
  intros Hmetadata. unfold addDefaultLabelsToResource, NestedMap, NestedFieldNoCopy, SetNestedMap.
  cbn [walk]. rewrite Hmetadata. unfold contents, default.
  cbn [walk mapOrNil from_option id].
  assert (Hset : forall labels,
            SetNestedField resource (VMap labels) ["metadata"; "labels"]
            = Ok (<["metadata" := VMap (<["labels" := VMap labels]> metadata)]> resource))
    by (intros; cbn; by rewrite Hmetadata).
  destruct (metadata !! "labels") as [[| | | | | |labels]|] eqn:Hlabels;
    repeat (rewrite ?Hlabels, ?lookup_insert_eq;
            progress cbn [found store obind mapOrNil walk orEmpty]);
    apply Hset.
Qed.

(** Lemma: a document without [metadata] makes the label step panic: it
    writes [labels] into the nil map that [NestedMap] returned. *)
Lemma addDefaultLabelsToResource_no_metadata (resource : gmap string value) :
  resource !! "metadata" = None ->
  addDefaultLabelsToResource addonGroup addon resource = Abort.
Proof.
  intros Hmetadata. unfold addDefaultLabelsToResource, NestedMap, NestedFieldNoCopy.
  cbn [walk]. rewrite Hmetadata. cbn. by rewrite lookup_empty.
Qed.

Lemma defaultLabels_lookup (labels : gmap string value) (k : string) :
  defaultLabels addonGroup addon labels !! k
  = if decide (k = "app.kubernetes.io/managed-by") then Some (VString addonGroup)
    else if decide (k = "app.kubernetes.io/part-of") then Some (VString (Name addon))
    else if decide (k = "app.kubernetes.io/version") then Some (VString (PkgVersion addon))
    else if decide (k = "app.kubernetes.io/name") then Some (VString (Name addon))
    else labels !! k.
Proof.
  unfold defaultLabels. rewrite !lookup_insert.
  repeat (destruct (decide (_ = k)) as [<-|?]; [reflexivity|]).
  repeat (destruct (decide (k = _)) as [->|?]; [done|]). reflexivity.
Qed.

Lemma defaultLabels_idempotent (labels : gmap string value) :
  defaultLabels addonGroup addon (defaultLabels addonGroup addon labels)
  = defaultLabels addonGroup addon labels.
Proof.
  apply map_eq. intros k. rewrite !defaultLabels_lookup.
  repeat (destruct (decide _); [reflexivity|]). reflexivity.
Qed.

End Labels.

Section Role.

Variable wt : WorkflowType.

(** Lemma: on a document whose [spec] and [spec.template] are absent or
    maps, the role step returns the document with the annotation written
    into [spec.template.metadata.annotations], the maps on the way being
    created where absent. *)
Lemma addRoleAnnotateToResource_annotates (resource : gmap string value) :
  annotatable resource = true ->
  let spec := orEmpty (resource !! "spec") in
  let template := orEmpty (spec !! "template") in
  let metadata := orEmpty (template !! "metadata") in
  let annotations := orEmpty (metadata !! "annotations") in
  addRoleAnnotateToResource resource wt
  = Ok (<["spec" := VMap (<["template" := VMap (<["metadata" := VMap (<["annotations" :=
          VMap (<[roleAnnotation := VString (Role wt)]> annotations)]> metadata)]> template)]>
        spec)]> resource).
Proof.
  unfold annotatable, addRoleAnnotateToResource, NestedMap, NestedFieldNoCopy, SetNestedMap,
    contents, default.
  destruct (resource !! "spec") as [[| | | | | |spec]|] eqn:Hspec; try discriminate.
  - destruct (spec !! "template") as [[| | | | | |template]|] eqn:Htemplate; try discriminate.
    + intros _.
      destruct (template !! "metadata") as [[| | | | | |metadata]|] eqn:Hmetadata; nested;
        try reflexivity.
      destruct (metadata !! "annotations") as [[| | | | | |annotations]|] eqn:Hannotations;
        nested; reflexivity.
    + intros _. nested. reflexivity.
  - intros _. nested. reflexivity.
Qed.

End Role.







Section Documents.

Lemma append_cons (a : ascii) (s t : string) : String a s +:+ t = String a (s +:+ t).
Proof. reflexivity. Qed.

Lemma append_one (cur : string) (c : ascii) (d : string) :
  (cur +:+ String c "") +:+ d = cur +:+ String c d.
Proof.
  induction cur as [|a cur IH]; [reflexivity|]. rewrite !append_cons. f_equal. exact IH.
Qed.

Lemma append_empty (s : string) : s +:+ "" = s.
Proof. induction s as [|a s IH]; [reflexivity|]. rewrite append_cons. f_equal. exact IH. Qed.

Lemma whole_cons (c : ascii) (d : string) :
  whole (String c d) = true -> String.prefix separator (String c d) = false /\ whole d = true.
Proof.
  unfold whole. cbn [strings.Contains]. rewrite negb_true_iff, orb_false_iff.
  intros [Hprefix Hrest]. split; [exact Hprefix|]. by rewrite Hrest.
Qed.

Lemma prefix_cons (a b : ascii) (s t : string) :
  String.prefix (String a s) (String b t) = bool_decide (a = b) && String.prefix s t.
Proof. cbn [String.prefix]. destruct (ascii_dec a b); by case_bool_decide. Qed.

Lemma append_nil (s : string) : "" +:+ s = s.
Proof. reflexivity. Qed.

(** Lemma: the separator ends in a line feed and has no other: it cannot
    begin inside a document that does not contain it and end inside the
    separator that follows the document. *)
Lemma separator_no_overlap (c : ascii) (d rest : string) :
  String.prefix separator (String c d) = false ->
  String.prefix separator (String c d +:+ separator +:+ rest) = false.
Proof.
  unfold separator.
  destruct d as [|c1 [|c2 [|c3 d]]];
    rewrite ?append_cons, ?append_nil, ?prefix_cons;
    repeat case_bool_decide; subst; cbn [andb]; try congruence.
  by destruct d.
Qed.

(** Lemma: a document without separator is one piece. *)
Lemma split_whole (d cur : string) :
  whole d = true -> strings.split_from separator 0 cur d = [cur +:+ d].
Proof.
  revert cur. induction d as [|c d IH]; intros cur Hwhole.
  - cbn. by rewrite append_empty.
  - apply whole_cons in Hwhole as [Hprefix Hwhole].
    cbn [strings.split_from]. rewrite Hprefix, IH by done. by rewrite append_one.
Qed.

(** Lemma: a document without separator, followed by the separator, is the
    first piece. *)
Lemma split_first (d cur rest : string) :
  whole d = true ->
  strings.split_from separator 0 cur (d +:+ separator +:+ rest)
  = (cur +:+ d) :: strings.split_from separator 0 "" rest.
Proof.
  revert cur. induction d as [|c d IH]; intros cur Hwhole.
  - rewrite append_empty, append_nil. unfold separator.
    rewrite !append_cons, append_nil. cbn [strings.split_from].
    rewrite !prefix_cons. by destruct rest.
  - apply whole_cons in Hwhole as [Hprefix Hwhole].
    change (String c d +:+ separator +:+ rest) with (String c (d +:+ separator +:+ rest)).
    cbn [strings.split_from].
    change (String c (d +:+ separator +:+ rest)) with (String c d +:+ separator +:+ rest).
    rewrite separator_no_overlap, IH by done. by rewrite append_one.
Qed.

(** Lemma: splitting what [Join] made of documents without separator
    gives the documents back. *)
Lemma Split_Join (ds : list string) :
  ds <> [] ->
  Forall (fun d => whole d = true) ds ->
  strings.Split (strings.Join ds separator) separator = ds.
Proof.
  intros Hne Hall. change (strings.split_from separator 0 "" (strings.Join ds separator) = ds).
  induction Hall as [|d ds Hd Hall IH]; [done|].
  destruct ds as [|d' ds].
  - cbn [strings.Join]. by rewrite split_whole.
  - change (strings.Join (d :: d' :: ds) separator)
      with (d +:+ separator +:+ strings.Join (d' :: ds) separator).
    rewrite split_first by done. by rewrite IH.
Qed.

End Documents.

Section Idempotence.

Variable addonGroup : string.
Variable addon : Addon.
Variable wt : WorkflowType.

(** Lemma: the label step succeeds only on a document whose [metadata] is
    a map. *)
Lemma addDefaultLabelsToResource_Ok (resource resource' : gmap string value) :
  addDefaultLabelsToResource addonGroup addon resource = Ok resource' ->
  exists metadata, resource !! "metadata" = Some (VMap metadata).
Proof.
  destruct (resource !! "metadata") as [[| | | | | |metadata]|] eqn:Hmetadata;
    first [ by eexists
          | by rewrite addDefaultLabelsToResource_no_metadata
          | unfold addDefaultLabelsToResource, NestedMap, NestedFieldNoCopy; cbn [walk];
            rewrite Hmetadata; discriminate ].
Qed.

(** Lemma: the role step succeeds only on a document whose [spec] and
    [spec.template] are absent or maps. *)
Lemma addRoleAnnotateToResource_Ok (resource resource' : gmap string value) :
  addRoleAnnotateToResource resource wt = Ok resource' -> annotatable resource = true.
Proof.
  unfold annotatable, addRoleAnnotateToResource, NestedMap, NestedFieldNoCopy, SetNestedMap.
  destruct (resource !! "spec") as [[| | | | | |spec]|] eqn:Hspec; nested; try discriminate;
    try reflexivity.
  destruct (spec !! "template") as [[| | | | | |template]|] eqn:Htemplate; nested;
    try discriminate; reflexivity.
Qed.

(** Lemma: the label step leaves a document as it is when its labels
    already hold the default labels. *)
Lemma addDefaultLabelsToResource_fixed (resource metadata labels : gmap string value) :
  resource !! "metadata" = Some (VMap metadata) ->
  metadata !! "labels" = Some (VMap labels) ->
  defaultLabels addonGroup addon labels = labels ->
  addDefaultLabelsToResource addonGroup addon resource = Ok resource.
Proof.
  intros Hmetadata Hlabels Hfixed.
  rewrite (addDefaultLabelsToResource_merges _ _ _ _ Hmetadata), Hlabels. cbn [orEmpty].
  rewrite Hfixed. by rewrite (insert_id metadata), (insert_id resource).
Qed.

(** Lemma: the role step leaves a document as it is when the annotation is
    there already. *)
Lemma addRoleAnnotateToResource_fixed
  (resource spec template metadata annotations : gmap string value) :
  resource !! "spec" = Some (VMap spec) ->
  spec !! "template" = Some (VMap template) ->
  template !! "metadata" = Some (VMap metadata) ->
  metadata !! "annotations" = Some (VMap annotations) ->
  annotations !! roleAnnotation = Some (VString (Role wt)) ->
  addRoleAnnotateToResource resource wt = Ok resource.
Proof.
  intros Hspec Htemplate Hmetadata Hannotations Hrole.
  rewrite addRoleAnnotateToResource_annotates
    by (unfold annotatable; by rewrite Hspec, Htemplate).
  rewrite Hspec. cbn [orEmpty]. rewrite Htemplate. cbn [orEmpty].
  rewrite Hmetadata. cbn [orEmpty]. rewrite Hannotations. cbn [orEmpty].
  by rewrite (insert_id annotations), (insert_id metadata), (insert_id template),
    (insert_id spec), (insert_id resource).
Qed.

(** Lemma: what the post-processing of a document returns, it returns
    again when applied to it. *)
Lemma patchResource_idempotent (resource resource' : gmap string value) :
  patchResource addonGroup addon wt resource = Ok resource' ->
  patchResource addonGroup addon wt resource' = Ok resource'.
Proof.
  unfold patchResource.
  destruct (resource !! "kind") as [[| | | |kind| |]|] eqn:Hkind; try discriminate.
  destruct (labelled kind) eqn:Hlabelled;
    [|intros [= <-]; by rewrite Hkind, Hlabelled].
  destruct (addDefaultLabelsToResource addonGroup addon resource) as [labelled'| |] eqn:Hstep;
    try discriminate.
  destruct (addDefaultLabelsToResource_Ok _ _ Hstep) as [metadata Hmetadata].
  rewrite (addDefaultLabelsToResource_merges _ _ _ _ Hmetadata) in Hstep.
  injection Hstep as <-. cbn [obind].
  set (labels := defaultLabels addonGroup addon (orEmpty (metadata !! "labels"))).
  set (metadata' := <["labels" := VMap labels]> metadata).
  destruct (negb (String.eqb (Role wt) "")).
  - intros Hrole. pose proof (addRoleAnnotateToResource_Ok _ _ Hrole) as Hshape.
    rewrite addRoleAnnotateToResource_annotates in Hrole by done.
    injection Hrole as <-.
    rewrite lookup_insert_ne, lookup_insert_ne, Hkind, Hlabelled by done.
    erewrite addDefaultLabelsToResource_fixed; cbn [obind].
    + eapply addRoleAnnotateToResource_fixed; apply lookup_insert_eq.
    + rewrite lookup_insert_ne by done. apply lookup_insert_eq.
    + apply lookup_insert_eq.
    + apply defaultLabels_idempotent.
  - intros [= <-]. rewrite lookup_insert_ne, Hkind, Hlabelled by done.
    erewrite addDefaultLabelsToResource_fixed; cbn [obind]; [reflexivity|..].
    + apply lookup_insert_eq.
    + apply lookup_insert_eq.
    + apply defaultLabels_idempotent.
Qed.

End Idempotence.

Section Artifacts.

Variable yamlUnmarshal : string -> option (gmap string value).
Variable yamlMarshal : gmap string value -> option string.
Variable addonGroup : string.
Variable addon : Addon.
Variable wt : WorkflowType.

Lemma split_from_nonempty (sep : string) (skip : nat) (cur s : string) :
  strings.split_from sep skip cur s <> [].
Proof.
  revert skip cur. induction s as [|c s IH]; intros skip cur; cbn [strings.split_from];
    [done|].
  destruct skip; [|apply IH]. destruct (String.prefix sep (String c s)); [done|apply IH].
Qed.

Lemma omapM_nil {A B} (f : A -> outcome B) (l : list A) :
  omapM f l = Ok [] -> l = [].
Proof.
  destruct l as [|a l]; [reflexivity|]. cbn [omapM].
  destruct (f a); try discriminate. cbn [obind].
  destruct (omapM f l); discriminate.
Qed.

Lemma omapM_fixed {A} (f : A -> outcome A) (l : list A) :
  Forall (fun a => f a = Ok a) l -> omapM f l = Ok l.
Proof.
  induction 1 as [|a l Ha _ IH]; [reflexivity|]. cbn. by rewrite Ha, IH.
Qed.

(** Lemma: the documents written back are the serializations of the
    post-processed documents, each of which is the result of a
    post-processing. *)
Lemma processResource_patched (docs ds : list string) (resources : list (gmap string value)) :
  omapM (processResource yamlUnmarshal yamlMarshal addonGroup addon wt) docs = Ok ds ->
  omapM (patched yamlUnmarshal addonGroup addon wt) docs = Ok resources ->
  Forall2 (fun resource d =>
             yamlMarshal resource = Some d /\
             exists before, patchResource addonGroup addon wt before = Ok resource)
    resources ds.
Proof.
  revert ds resources. induction docs as [|doc docs IH]; intros ds resources; cbn.
  - intros [= <-] [= <-]. constructor.
  - unfold processResource at 1, patched at 1.
    destruct (yamlUnmarshal doc) as [before|]; [|discriminate]. cbn.
    destruct (patchResource addonGroup addon wt before) as [resource| |] eqn:Hpatch;
      try discriminate. cbn.
    destruct (yamlMarshal resource) as [d|] eqn:Hmarshal; [|discriminate]. cbn.
    destruct (omapM (processResource _ _ _ _ _) docs) as [ds'| |]; try discriminate.
    destruct (omapM (patched _ _ _ _) docs) as [resources'| |]; try discriminate.
    cbn. intros [= <-] [= <-]. constructor; [by eauto|by apply IH].
Qed.

(** Lemma: writing [raw.data] succeeds where [raw] is absent or a map;
    the value can then be read back, and written again without change. *)
Lemma SetNestedField_raw_data (artifact artifact' : gmap string value) (data : string) :
  SetNestedField artifact (VString data) ["raw"; "data"] = Ok artifact' ->
  rawData artifact' = data /\
  SetNestedField artifact' (VString data) ["raw"; "data"] = Ok artifact'.
Proof.
  unfold rawData, getNestedString, NestedString, NestedFieldNoCopy. cbn [SetNestedField walk].
  destruct (artifact !! "raw") as [[| | | | | |raw]|]; try discriminate;
    cbn [obind]; intros [= <-]; nested; done.
Qed.

End Artifacts.

(** C5, as the code has it: when one application of the post-processing to
    an artifact succeeds, and each post-processed document is written as
    a text that is free of the separator and that parses back to the
    document, a second application succeeds and leaves the artifact, its
    [raw.data] included, as the first one left it. *)
Theorem processArtifact_idempotent
  (yamlUnmarshal : string -> option (gmap string value))
  (yamlMarshal : gmap string value -> option string)
  (addonGroup : string) (addon : Addon) (wt : WorkflowType)
  (artifact : gmap string value) (artifact' : value)
  (resources : list (gmap string value)) :
  processArtifact yamlUnmarshal yamlMarshal addonGroup addon wt (VMap artifact) = Ok artifact' ->
  omapM (patched yamlUnmarshal addonGroup addon wt)
    (strings.Split (rawData artifact) separator) = Ok resources ->
  Forall (fun resource =>
            exists d, yamlMarshal resource = Some d /\ yamlUnmarshal d = Some resource /\
                      whole d = true) resources ->
  processArtifact yamlUnmarshal yamlMarshal addonGroup addon wt artifact' = Ok artifact'.
Proof.
  intros Hfirst Hpatched Hround.
  unfold processArtifact, processData in Hfirst. fold (rawData artifact) in Hfirst.
  destruct (omapM _ (strings.Split (rawData artifact) separator)) as [ds| |] eqn:Hdocs;
    try discriminate.
  cbn [obind] in Hfirst.
  destruct (SetNestedField artifact _ _) as [written| |] eqn:Hwrite; try discriminate.
  injection Hfirst as <-.
  destruct (SetNestedField_raw_data _ _ _ Hwrite) as [Hread Hagain].
  pose proof (processResource_patched _ _ _ _ _ _ _ _ Hdocs Hpatched) as Hpairs.
  assert (Hwhole : Forall (fun d => whole d = true) ds).
  { clear -Hpairs Hround. induction Hpairs as [|resource d resources ds [Hd _] _ IH];
      [constructor|].
    apply Forall_cons in Hround as [(d' & Hd' & _ & Hwhole) Hround].
    constructor; [congruence|by apply IH]. }
  assert (Hsame : Forall (fun d => processResource yamlUnmarshal yamlMarshal addonGroup addon wt d
                                   = Ok d) ds).
  { clear -Hpairs Hround.
    induction Hpairs as [|resource d resources ds [Hd [before Hbefore]] _ IH]; [constructor|].
    apply Forall_cons in Hround as [(d' & Hd' & Hparse & _) Hround].
    constructor; [|by apply IH].
    assert (d' = d) as -> by congruence.
    unfold processResource. rewrite Hparse.
    rewrite (patchResource_idempotent _ _ _ _ _ Hbefore). cbn. by rewrite Hd. }
  assert (Hne : ds <> []).
  { intros ->. apply omapM_nil in Hdocs. revert Hdocs. apply split_from_nonempty. }
  unfold processArtifact, processData. fold (rawData written).
  rewrite Hread, Split_Join, omapM_fixed by done. cbn [obind]. by rewrite Hagain.
Qed.

(** An artifact of two documents: it is written back as it was, and a
    second application leaves it so. *)
Lemma processArtifact_idempotent_witness :
  let run := processArtifact flatyaml.unmarshal flatyaml.marshal example.addonGroup
               example.addon example.workflowType in
  run (VMap (example.artifact example.twoDocuments))
  = Ok (VMap (example.artifact example.twoDocuments)) /\
  (forall artifact', run (VMap (example.artifact example.twoDocuments)) = Ok artifact' ->
                     run artifact' = Ok artifact').
Proof.
  intros run. split; [vm_compute; reflexivity|].
  intros artifact' Hfirst.
  refine (processArtifact_idempotent flatyaml.unmarshal flatyaml.marshal example.addonGroup
            example.addon example.workflowType (example.artifact example.twoDocuments)
            artifact'
            [ {[ "kind" := VString "ConfigMap"; "note" := VString "settings" ]};
              {[ "kind" := VString "Secret"; "note" := VString "token" ]} ]
            Hfirst _ _).
  - vm_compute. reflexivity.
  - apply List.Forall_cons; [|apply List.Forall_cons; [|apply List.Forall_nil]].
    + exists ("kind: ConfigMap" +:+ flatyaml.newline +:+ "note: settings" +:+ flatyaml.newline).
      split; [vm_compute; reflexivity|]. split; vm_compute; reflexivity.
    + exists ("kind: Secret" +:+ flatyaml.newline +:+ "note: token" +:+ flatyaml.newline).
      split; [vm_compute; reflexivity|]. split; vm_compute; reflexivity.
Defined.

(** C5, as the claim has it, fails: the document ends in a scalar that
    ends in three dashes.  The first application succeeds and writes the
    document with its final line feed, after the dashes; the second
    application splits that text at the dashes and the line feed, and
    panics on the empty second piece, which has no [kind]. *)
Lemma processArtifact_not_idempotent :
  let run := processArtifact flatyaml.unmarshal flatyaml.marshal example.addonGroup
               example.addon example.workflowType in
  let once := VMap (example.artifact (example.dashes +:+ flatyaml.newline)) in
  strings.Contains example.dashes separator = false /\
  run (VMap (example.artifact example.dashes)) = Ok once /\
  strings.Split (example.dashes +:+ flatyaml.newline) separator
  = ["kind: ConfigMap" +:+ flatyaml.newline +:+ "note: x"; ""] /\
  run once = Abort.
Proof. repeat split; vm_compute; reflexivity. Qed.

(** * Further properties of the lifecycle *)

(** ** Rendering *)

(** X1: a rendered job carries the identity the renderer gives it and
    nothing else of the template: its name is the requested one, its
    namespace the addon's, its kind and version those of a workflow; it has
    no top-level field besides [apiVersion], [kind], [metadata] and [spec],
    and no [metadata] field besides [namespace] and [name]. *)
Theorem parse_identity (yamlUnmarshal : string -> option (gmap string value))
  (addon : Addon) (wt : WorkflowType) (name : string) (wf : Unstructured) :
  parse yamlUnmarshal addon wt name = Ok wf ->
  GetName wf = name /\
  GetNamespace wf = Namespace addon /\
  wf !! "apiVersion" = Some (VString "argoproj.io/v1alpha1") /\
  wf !! "kind" = Some (VString "Workflow") /\
  (forall k, k ∉ ["apiVersion"; "kind"; "metadata"; "spec"] -> wf !! k = None) /\
  (forall f, f ∉ ["namespace"; "name"] -> NestedFieldNoCopy wf ["metadata"; f] = Missing).
Proof.
  unfold parse. destruct (yamlUnmarshal (Template wt)) as [data|]; [|discriminate].
  destruct (data !! "spec") as [[| | | | | |spec]|]; try discriminate.
  intros [= <-].
  set (spec' := if isNil _ then _ else _). clearbody spec'.
  unfold GetName, GetNamespace, getNestedString, NestedString, NestedFieldNoCopy,
    SetName, SetNamespace, SetGroupVersionKind, setNestedField.
  destruct (decide (Namespace addon = "")) as [Hns|Hns],
           (decide (name = "")) as [Hname|Hname];
    rewrite ?Hns, ?Hname; cbn [SetNestedField RemoveNestedField walk obind];
    repeat (rewrite ?lookup_insert_eq, ?lookup_empty;
            rewrite ?lookup_insert_ne by discriminate;
            cbn [SetNestedField RemoveNestedField walk obind]);
    (split; [done|]); (split; [done|]); (split; [done|]); (split; [done|]); split;
    intros k Hk;
    repeat first [ rewrite lookup_insert_ne by (intros <-; apply Hk; set_solver)
                 | rewrite lookup_delete_ne by (intros <-; apply Hk; set_solver)
                 | rewrite lookup_delete_eq ];
    rewrite ?lookup_empty; done.
Qed.

(** A template that brings a name of its own. *)
Lemma parse_identity_witness :
  let unmarshal (_ : string) : option (gmap string value) :=
    Some {[ "metadata" := VMap {[ "name" := VString "from-template" ]};
            "spec" := VMap ∅ ]} in
  exists wf,
    parse unmarshal example.addon example.workflowType "addon-1-prereqs-bbbb-wf" = Ok wf /\
    GetName wf = "addon-1-prereqs-bbbb-wf" /\
    GetNamespace wf = "addon-manager-system".
Proof.
  intros unmarshal.
  destruct (parse_identity unmarshal example.addon example.workflowType
              "addon-1-prereqs-bbbb-wf" _ eq_refl) as (Hname & Hnamespace & _).
  eexists. split; [reflexivity|]. split; [exact Hname|exact Hnamespace].
Defined.



(** ** Deletion *)



(** ** The most recent execution *)

Section Latest.

Variable parseRFC3339 : string -> option Z.
Variable addon : Addon.

(** Lemma: the invariant of the first loop.  When it runs to its end, the
    time it holds is not earlier than the one it started with; either it
    still holds what it started with, every execution of the addon in the
    list having started earlier, or it holds a listed execution of the
    addon, started at that time, none having started later. *)
Lemma mostRecent_invariant (items : list Unstructured) (t0 t : Z)
  (m0 m : option Unstructured) :
  mostRecent parseRFC3339 addon items t0 m0 = Next (t, m) ->
  (t0 <= t)%Z /\
  Forall (fun workflow => related addon workflow = true ->
                          exists t', started parseRFC3339 workflow = Some t' /\ (t' <= t)%Z)
    items /\
  ((m = m0 /\ t = t0 /\
    Forall (fun workflow => related addon workflow = true ->
                            exists t', started parseRFC3339 workflow = Some t' /\ (t' < t0)%Z)
      items) \/
   (exists workflow, m = Some workflow /\ workflow ∈ items /\ related addon workflow = true /\
                     started parseRFC3339 workflow = Some t)).
Proof.
  revert t0 m0. induction items as [|workflow items IH]; intros t0 m0; cbn [mostRecent].
  - intros [= <- <-]. split; [lia|]. split; [constructor|]. left. by repeat split.
  - destruct (strings.Contains (GetName workflow) (Name addon)) eqn:Hrelated.
    + destruct (isNil (workflow !! "status")); [discriminate|].
      destruct (workflow !! "status") as [[| | | | | |status]|] eqn:Hstatus; try discriminate.
      destruct (status !! "startedAt") as [[| | | |startedAt| |]|] eqn:HstartedAt;
        try discriminate.
      destruct (parseRFC3339 startedAt) as [t1|] eqn:Htime; [|discriminate].
      assert (Hstarted1 : started parseRFC3339 workflow = Some t1)
        by (unfold started; by rewrite Hstatus, HstartedAt).
      destruct (Z.ltb_spec t1 t0) as [Hearlier|Hlater]; cbn [negb]; intros Hrest;
        apply IH in Hrest as (Hle & Hall & Hwhich).
      * split; [done|]. split; [constructor; [intros _; exists t1; split; [done|lia]|done]|].
        destruct Hwhich as [(-> & -> & Hbefore)|(latest & -> & Hin & Hrel & Hstarted)].
        -- left. repeat split; try done. constructor; [|done]. intros _. by exists t1.
        -- right. exists latest. repeat split; try done. by right.
      * split; [lia|]. split; [constructor; [intros _; exists t1; split; [done|lia]|done]|].
        right. destruct Hwhich as [(-> & -> & Hbefore)|(latest & -> & Hin & Hrel & Hstarted)].
        -- exists workflow. split; [done|]. split; [by left|]. by split.
        -- exists latest. repeat split; try done. by right.
    + intros Hrest. apply IH in Hrest as (Hle & Hall & Hwhich).
      assert (Hskip : related addon workflow = false) by exact Hrelated.
      split; [done|]. split; [constructor; [by rewrite Hskip|done]|].
      destruct Hwhich as [(-> & -> & Hbefore)|(latest & -> & Hin & Hrel & Hstarted)].
      * left. repeat split; try done. constructor; [by rewrite Hskip|done].
      * right. exists latest. repeat split; try done. by right.
Qed.

(** Lemma: the first loop runs to its end when every execution of the
    addon in the list has a start time that can be read. *)
Lemma mostRecent_runs (items : list Unstructured) (t0 : Z) (m0 : option Unstructured) :
  Forall (fun workflow => related addon workflow = true ->
                          is_Some (started parseRFC3339 workflow)) items ->
  exists t m, mostRecent parseRFC3339 addon items t0 m0 = Next (t, m).
Proof.
  intros Hall. revert t0 m0. induction Hall as [|workflow items Hstarted _ IH]; intros t0 m0.
  - by eexists _, _.
  - cbn [mostRecent]. unfold related, started in Hstarted.
    destruct (strings.Contains (GetName workflow) (Name addon)); [|apply IH].
    destruct (Hstarted eq_refl) as [t1 Htime].
    destruct (workflow !! "status") as [[| | | | | |status]|]; try discriminate.
    cbn [isNil].
    destruct (status !! "startedAt") as [[| | | |startedAt| |]|]; try discriminate.
    rewrite Htime. destruct (negb _); apply IH.
Qed.

End Latest.

(** X4: what the first loop of the resolver settles on.  When it runs to
    its end, every listed execution of the addon has a start time that can
    be read; the execution it holds is a listed execution of the addon
    that started at or after the zero time and that none started after;
    it holds none exactly when all of them started before the zero
    time. *)
Theorem mostRecent_latest (parseRFC3339 : string -> option Z) (addon : Addon)
  (items : list Unstructured) (t : Z) (m : option Unstructured) :
  mostRecent parseRFC3339 addon items 0 None = Next (t, m) ->
  (forall workflow, workflow ∈ items -> related addon workflow = true ->
     exists t', started parseRFC3339 workflow = Some t' /\ (t' <= t)%Z) /\
  match m with
  | Some latest =>
      latest ∈ items /\ related addon latest = true /\
      started parseRFC3339 latest = Some t /\ (0 <= t)%Z
  | None =>
      t = 0%Z /\
      forall workflow, workflow ∈ items -> related addon workflow = true ->
        exists t', started parseRFC3339 workflow = Some t' /\ (t' < 0)%Z
  end.
Proof.
  intros Hrun. apply mostRecent_invariant in Hrun as (Hle & Hall & Hwhich).
  rewrite Forall_forall in Hall. split; [exact Hall|].
  destruct Hwhich as [(-> & -> & Hbefore)|(latest & -> & Hin & Hrel & Hstarted)].
  - split; [reflexivity|]. by rewrite Forall_forall in Hbefore.
  - by repeat split.
Qed.

(** Of the two executions, the one started last is held. *)
Lemma mostRecent_latest_witness :
  mostRecent rfc3339.parse example.addon [example.wfB; example.unrelated; example.wfA] 0 None
  = Next (63713520000%Z, Some example.wfB) /\
  started rfc3339.parse example.wfB = Some 63713520000%Z /\
  exists t', started rfc3339.parse example.wfA = Some t' /\ (t' <= 63713520000)%Z.
Proof.
  assert (Hrun : mostRecent rfc3339.parse example.addon
                   [example.wfB; example.unrelated; example.wfA] 0 None
                 = Next (63713520000%Z, Some example.wfB)) by (vm_compute; reflexivity).
  destruct (mostRecent_latest _ _ _ _ _ Hrun) as [Hall (_ & _ & Hstarted & _)].
  split; [exact Hrun|]. split; [exact Hstarted|].
  apply Hall; [|vm_compute; reflexivity].
  apply list_elem_of_In. right. right. left. reflexivity.
Defined.

(** X5: the resolver leaves a current execution alone.  When the start
    time of every listed execution of the addon can be read, one of them
    started at or after the zero time, and every execution of the addon
    that started no earlier than it carries the current checksum in its
    name, the resolver deletes nothing, reports no deletion and leaves the
    world as it is; it does not read the phases, so that a listed object
    without a status block cannot make it panic. *)
Theorem deleteCollisionWorkflows_current (parseRFC3339 : string -> option Z) (addon : Addon)
  (wfv1 : Unstructured) (w : World) (workflows : list Unstructured)
  (current : Unstructured) (t : Z) :
  cluster.List (Namespace addon) w = Ok workflows ->
  Forall (fun workflow => related addon workflow = true ->
                          is_Some (started parseRFC3339 workflow)) workflows ->
  current ∈ workflows ->
  related addon current = true ->
  started parseRFC3339 current = Some t ->
  (0 <= t)%Z ->
  (forall workflow t', workflow ∈ workflows -> related addon workflow = true ->
     started parseRFC3339 workflow = Some t' -> (t <= t')%Z ->
     strings.Contains (GetName workflow) (Checksum addon) = true) ->
  deleteCollisionWorkflows parseRFC3339 addon wfv1 w = (Return (false, None), w).
Proof.
  intros Hlist Hreadable Hin Hrel Hstarted Hzero Hcurrent.
  destruct (mostRecent_runs parseRFC3339 addon workflows 0 None Hreadable) as (tm & m & Hrun).
  unfold deleteCollisionWorkflows. rewrite Hlist, Hrun.
  apply mostRecent_invariant in Hrun as (_ & Hall & Hwhich).
  rewrite Forall_forall in Hall.
  destruct (Hall current Hin Hrel) as (t' & Ht' & Hle).
  assert (t' = t) as -> by congruence.
  destruct Hwhich as [(-> & -> & Hbefore)|(latest & -> & Hin' & Hrel' & Hstarted')].
  - rewrite Forall_forall in Hbefore. destruct (Hbefore current Hin Hrel) as (t'' & ? & ?).
    assert (t'' = t) by congruence. lia.
  - by rewrite (Hcurrent latest tm Hin' Hrel' Hstarted' Hle).
Qed.

(** The newest execution carries the current checksum [bbbb]; the object
    without a status block does no harm. *)
Lemma deleteCollisionWorkflows_current_witness :
  let w := example.world [example.wfA; example.unrelated; example.wfB] in
  deleteCollisionWorkflows rfc3339.parse example.addon example.wfB w = (Return (false, None), w).
Proof.
  intros w.
  apply (deleteCollisionWorkflows_current rfc3339.parse example.addon example.wfB w
           [example.wfA; example.unrelated; example.wfB] example.wfB 63713520000%Z).
  - vm_compute. reflexivity.
  - repeat apply List.Forall_cons; try apply List.Forall_nil; vm_compute;
      first [discriminate|intros _; by eexists].
  - apply list_elem_of_In. right. right. left. reflexivity.
  - vm_compute. reflexivity.
  - vm_compute. reflexivity.
  - lia.
  - intros workflow t' Hin Hrel Hstarted Hle.
    apply list_elem_of_In in Hin as [<-|[<-|[<-|[]]]].
    + vm_compute in Hstarted. injection Hstarted as <-. lia.
    + vm_compute in Hrel. discriminate.
    + vm_compute. reflexivity.
Defined.

Section Effects.

Variable parseRFC3339 : string -> option Z.
Variable addonGroup : string.
Variable addon : Addon.

(** Lemma: the first loop goes through a prefix of executions whose start
    time can be read, and carries on with the rest. *)
Lemma mostRecent_app (before rest : list Unstructured) (t0 : Z) (m0 : option Unstructured) :
  Forall (fun workflow => related addon workflow = true ->
                          is_Some (started parseRFC3339 workflow)) before ->
  exists t m,
    mostRecent parseRFC3339 addon (before ++ rest) t0 m0
    = mostRecent parseRFC3339 addon rest t m.
Proof.
  intros Hall. revert t0 m0. induction Hall as [|workflow before Hstarted _ IH]; intros t0 m0.
  - by eexists _, _.
  - rewrite <- app_comm_cons. cbn [mostRecent]. unfold related, started in Hstarted.
    destruct (strings.Contains (GetName workflow) (Name addon)); [|apply IH].
    destruct (Hstarted eq_refl) as [t1 Htime].
    destruct (workflow !! "status") as [[| | | | | |status]|]; try discriminate.
    cbn [isNil].
    destruct (status !! "startedAt") as [[| | | |startedAt| |]|]; try discriminate.
    rewrite Htime. destruct (negb _); apply IH.
Qed.

Lemma without_nil (namespace : string) (objs : list Unstructured) :
  without namespace [] objs = objs.
Proof. unfold without. by apply filter_all. Qed.

Lemma without_cons (namespace name : string) (names : list string) (objs : list Unstructured) :
  without namespace names
    (List.filter (fun o => negb (cluster.keyed namespace name o)) objs)
  = without namespace (name :: names) objs.
Proof.
  unfold without. rewrite filter_twice. apply List.filter_ext. intros o. cbn [existsb].
  by rewrite negb_orb.
Qed.

(** Lemma: whatever the second loop comes to, it has only deleted by name
    in the addon's namespace. *)
Lemma deleteOld_only_deletes (items : list Unstructured) (deleted : bool) (w : World) :
  exists names,
    (deleteOld addon items deleted w).2
    = {| objects := without (Namespace addon) names (objects w); events := events w |}.
Proof.
  revert deleted w. induction items as [|workflow items IH]; intros deleted w;
    cbn [deleteOld].
  - exists []. rewrite without_nil. by destruct w.
  - destruct (phaseOf workflow) as [phase|];
      [|exists []; rewrite without_nil; by destruct w].
    destruct (_ && _); [|apply IH].
    destruct (Delete_objects addon (GetName workflow) w) as [err ->].
    destruct (IH true {| objects := List.filter
                           (fun o => negb (cluster.keyed (Namespace addon) (GetName workflow) o))
                           (objects w);
                         events := events w |}) as [names ->].
    exists (GetName workflow :: names). cbn [objects events]. by rewrite without_cons.
Qed.

(** Lemma: whatever the resolver comes to, it has only deleted by name in
    the addon's namespace. *)
Lemma deleteCollisionWorkflows_only_deletes (wfv1 : Unstructured) (w : World) :
  exists names,
    (deleteCollisionWorkflows parseRFC3339 addon wfv1 w).2
    = {| objects := without (Namespace addon) names (objects w); events := events w |}.
Proof.
  assert (Hsame : exists names,
            w = {| objects := without (Namespace addon) names (objects w);
                   events := events w |})
    by (exists []; rewrite without_nil; by destruct w).
  unfold deleteCollisionWorkflows.
  destruct (cluster.List _ w) as [workflows| |]; try exact Hsame.
  destruct (mostRecent _ _ workflows 0 None) as [r|[t [mostRecentWorkflow|]]|];
    try exact Hsame.
  destruct (negb _); [|exact Hsame].
  destruct (deleteOld_only_deletes workflows false w) as [names Hnames].
  exists names. by destruct (deleteOld addon workflows false w) as [[deleted|] w'].
Qed.

(** Lemma: [create] either leaves the world as it is, or returns Pending
    after adding one object and one event. *)
Lemma create_effects (wp : Unstructured) (w : World) :
  (create addonGroup addon wp w).2 = w \/
  exists w1, create addonGroup addon wp w = (Return (Pending, None), w1).
Proof.
  unfold create.
  destruct (owner.SetControllerReference _ _) as [owned| |]; try by left.
  destruct (notControlling _) as [ownerReferences|]; try by left.
  destruct (cluster.Create _ w) as [w1| |]; try by left.
  right. by eexists.
Qed.

End Effects.

(** ** What the resolver and the submission do to the world *)

(** X6: an execution of the addon without a status block stops the
    resolver: when the executions of the addon listed before it have a
    start time that can be read, the resolver reports no deletion and no
    error and leaves the world as it is, whatever is listed after it. *)
Theorem deleteCollisionWorkflows_not_ready (parseRFC3339 : string -> option Z) (addon : Addon)
  (wfv1 : Unstructured) (w : World) (before after : list Unstructured)
  (fresh : Unstructured) :
  cluster.List (Namespace addon) w = Ok (before ++ fresh :: after) ->
  Forall (fun workflow => related addon workflow = true ->
                          is_Some (started parseRFC3339 workflow)) before ->
  related addon fresh = true ->
  isNil (fresh !! "status") = true ->
  deleteCollisionWorkflows parseRFC3339 addon wfv1 w = (Return (false, None), w).
Proof.
  intros Hlist Hbefore Hrelated Hnil.
  unfold deleteCollisionWorkflows. rewrite Hlist.
  destruct (mostRecent_app parseRFC3339 addon before (fresh :: after) 0 None Hbefore)
    as (t & m & ->).
  cbn [mostRecent]. unfold related in Hrelated. by rewrite Hrelated, Hnil.
Qed.

(** The newest execution of the addon has no status block yet; the
    execution listed after it has an unreadable start time. *)
Lemma deleteCollisionWorkflows_not_ready_witness :
  let fresh : Unstructured :=
    {[ "metadata" := VMap {[ "namespace" := VString (Namespace example.addon);
                            "name" := VString "addon-1-prereqs-cccc-wf" ]} ]} in
  let broken := example.execution "addon-1-prereqs-dddd-wf" "yesterday" "Succeeded" in
  let w := example.world [example.wfA; fresh; broken] in
  deleteCollisionWorkflows rfc3339.parse example.reverted example.wfA w
  = (Return (false, None), w).
Proof.
  intros fresh broken w.
  apply (deleteCollisionWorkflows_not_ready rfc3339.parse example.reverted example.wfA w
           [example.wfA] [broken] fresh).
  - vm_compute. reflexivity.
  - apply List.Forall_cons; [|apply List.Forall_nil]. intros _. vm_compute. by eexists.
  - vm_compute. reflexivity.
  - vm_compute. reflexivity.
Defined.

(** X7: what [submit] does to the world, whatever it returns, a panic
    included: either it has only deleted executions by name in the addon's
    namespace, every other object and the events being as before; or it
    has returned Pending after adding one object, under the key of the
    rendered job, where the world held none, and recording one event.
    When an execution exists under the key of the rendered job, it is the
    former: nothing is created. *)
Theorem submit_effects (parseRFC3339 : string -> option Z) (addonGroup : string)
  (addon : Addon) (wp : Unstructured) (w : World) :
  let result := submit parseRFC3339 addonGroup addon wp w in
  ((exists names,
      result.2 = {| objects := without (Namespace addon) names (objects w);
                    events := events w |}) \/
   (exists created event,
      result = (Return (Pending, None),
                {| objects := objects w ++ [created]; events := events w ++ [event] |}) /\
      key created = key wp /\
      executions (GetNamespace wp) (GetName wp) w = [])) /\
  (forall wfv1, cluster.Get (GetNamespace wp) (GetName wp) w = Ok wfv1 ->
     exists names,
       result.2 = {| objects := without (Namespace addon) names (objects w);
                     events := events w |}).
Proof.
  cbn zeta.
  assert (Hsame : exists names,
            w = {| objects := without (Namespace addon) names (objects w);
                   events := events w |})
    by (exists []; rewrite without_nil; by destruct w).
  assert (Hfound : forall wfv1, cluster.Get (GetNamespace wp) (GetName wp) w = Ok wfv1 ->
            exists names,
              (submit parseRFC3339 addonGroup addon wp w).2
              = {| objects := without (Namespace addon) names (objects w);
                   events := events w |}).
  { intros wfv1 Hget. unfold submit, findWorkflowByName. rewrite Hget.
    destruct (deleteCollisionWorkflows_only_deletes parseRFC3339 addon wfv1 w)
      as [names Hnames].
    exists names.
    destruct (deleteCollisionWorkflows parseRFC3339 addon wfv1 w)
      as [[[[] [err|]]|] w'] eqn:Hresolve; cbn [snd] in Hnames |- *; try exact Hnames.
    apply deleteCollisionWorkflows_none in Hresolve as ->.
    unfold observe.
    destruct (cluster.Get (GetNamespace wfv1) (GetName wfv1) w); exact Hnames. }
  split; [|exact Hfound].
  destruct (cluster.Get (GetNamespace wp) (GetName wp) w) as [wfv1|e|] eqn:Hget.
  - left. by apply (Hfound wfv1).
  - unfold submit, findWorkflowByName. rewrite Hget.
    destruct (cluster.IsNotFound e); [|by left].
    destruct (create_effects addonGroup addon wp w) as [Hnone|[w1 Hcreated]].
    + left. rewrite Hnone. exact Hsame.
    + right. rewrite Hcreated.
      apply create_Pending in Hcreated as (created & event & Hkey & Hfree & ->).
      by exists created, event.
  - left. unfold submit, findWorkflowByName. rewrite Hget. exact Hsame.
Qed.

(** The rendered job exists already: nothing is created. *)
Lemma submit_effects_witness :
  let w := example.world [example.wfA; example.wfB] in
  exists names,
    (submit rfc3339.parse example.addonGroup example.addon example.rendered w).2
    = {| objects := without (Namespace example.addon) names (objects w);
         events := events w |}.
Proof.
  intros w.
  apply (proj2 (submit_effects rfc3339.parse example.addonGroup example.addon
                  example.rendered w) example.wfB).
  vm_compute. reflexivity.
Defined.

(** ** Ownership of a created execution *)

Section Ownership.

(** Lemma: an owner reference is read back from its unstructured form. *)
Lemma extractOwnerReference_toUnstructured (r : owner.OwnerReference) :
  owner.asMap (owner.toUnstructured r) ≫= (fun m => Some (owner.extractOwnerReference m))
  = Some r.
Proof.
  destruct r as [apiVersion kind name uid [controller|] [blockOwnerDeletion|]];
    unfold owner.toUnstructured, owner.extractOwnerReference, owner.optField, owner.nestedBool,
      getNestedString, NestedString, NestedFieldNoCopy;
    cbn [owner.asMap mbind option_bind walk owner.APIVersion owner.Kind owner.RefName
         owner.RefUID owner.Controller owner.BlockOwnerDeletion];
    repeat (rewrite ?lookup_insert_eq; rewrite ?lookup_insert_ne by done);
    rewrite ?lookup_empty; reflexivity.
Qed.

Lemma mapM_asMap_toUnstructured (refs : list owner.OwnerReference) :
  exists ms, mapM owner.asMap (owner.toUnstructured <$> refs) = Some ms /\
             owner.extractOwnerReference <$> ms = refs.
Proof.
  enough (exists ms, Forall2 (fun v m => owner.asMap v = Some m)
                       (owner.toUnstructured <$> refs) ms /\
                     owner.extractOwnerReference <$> ms = refs)
    as (ms & Hms & Hrefs) by (exists ms; split; [by apply mapM_Some_2|done]).
  induction refs as [|r refs (ms & Hms & Hrefs)]; [exists []; by split; [constructor|]|].
  pose proof (extractOwnerReference_toUnstructured r) as Hr.
  destruct (owner.asMap (owner.toUnstructured r)) as [m|] eqn:Hm; [|discriminate].
  injection Hr as Hr.
  exists (m :: ms). split; [by constructor|]. by rewrite fmap_cons, Hr, Hrefs.
Qed.

(** Lemma: owner references written to an object whose [metadata] is
    absent or a map are read back as written. *)
Lemma GetOwnerReferences_SetOwnerReferences (refs : list owner.OwnerReference)
  (u : Unstructured) :
  writable u = true ->
  refs <> [] ->
  owner.GetOwnerReferences (owner.SetOwnerReferences refs u) = refs.
Proof.
  intros Hwritable Hrefs. destruct refs as [|r refs]; [done|].
  destruct (mapM_asMap_toUnstructured (r :: refs)) as (ms & Hms & Hback).
  unfold owner.GetOwnerReferences, owner.SetOwnerReferences, setNestedField, NestedFieldNoCopy,
    writable in *.
  cbn [SetNestedField walk].
  destruct (u !! "metadata") as [[| | | | | |metadata]|]; try discriminate;
    cbn [obind walk]; rewrite !lookup_insert_eq; by rewrite Hms, Hback.
Qed.

Lemma writable_set (u : Unstructured) (v : value) (k : string) :
  writable u = true -> writable (setNestedField u v ["metadata"; k]) = true.
Proof.
  unfold writable, setNestedField. cbn [SetNestedField].
  destruct (u !! "metadata") as [[| | | | | |metadata]|] eqn:Hmetadata; try discriminate;
    cbn [obind]; by rewrite lookup_insert_eq.
Qed.

Lemma writable_remove (u : Unstructured) (k : string) :
  writable u = true -> writable (RemoveNestedField u ["metadata"; k]) = true.
Proof.
  unfold writable. cbn [RemoveNestedField].
  destruct (u !! "metadata") as [[| | | | | |metadata]|] eqn:Hmetadata; try discriminate;
    rewrite ?lookup_insert_eq, ?Hmetadata; done.
Qed.

Lemma writable_top (u : Unstructured) (v : value) (k : string) :
  k <> "metadata" -> writable (setNestedField u v [k]) = writable u.
Proof.
  intros Hk. unfold writable, setNestedField. cbn [SetNestedField].
  by rewrite lookup_insert_ne.
Qed.

Lemma GetOwnerReferences_walk (u u' : Unstructured) :
  NestedFieldNoCopy u ["metadata"; "ownerReferences"]
  = NestedFieldNoCopy u' ["metadata"; "ownerReferences"] ->
  owner.GetOwnerReferences u = owner.GetOwnerReferences u'.
Proof. unfold owner.GetOwnerReferences. by intros ->. Qed.

(** Lemma: stamping an object with the identity of a workflow keeps its
    owner references and keeps its [metadata] writable. *)
Lemma stamp_owner (namespace name : string) (u : Unstructured) :
  let stamped := SetName name (SetNamespace namespace
                   (SetGroupVersionKind "argoproj.io" "v1alpha1" "Workflow" u)) in
  owner.GetOwnerReferences stamped = owner.GetOwnerReferences u /\
  (writable u = true -> writable stamped = true) /\
  (forall k, k <> "apiVersion" -> k <> "kind" -> k <> "metadata" -> stamped !! k = u !! k).
Proof.
  cbn zeta. unfold SetName, SetNamespace, SetGroupVersionKind. split; [|split].
  - apply GetOwnerReferences_walk.
    destruct (decide (name = "")), (decide (namespace = ""));
      repeat first [ rewrite metadata_remove_other by done
                   | rewrite metadata_set_other by done
                   | rewrite metadata_set_top by done ];
      reflexivity.
  - intros Hwritable.
    destruct (decide (name = "")), (decide (namespace = ""));
      repeat first [apply writable_remove | apply writable_set];
      by rewrite !writable_top.
  - intros k Hapi Hkind Hmetadata.
    assert (Hset : forall (o : Unstructured) v f,
              setNestedField o v ["metadata"; f] !! k = o !! k).
    { intros o v f. unfold setNestedField. cbn [SetNestedField].
      destruct (o !! "metadata") as [[| | | | | |m]|]; cbn [obind]; try done;
        by rewrite lookup_insert_ne. }
    assert (Hremove : forall (o : Unstructured) f,
              RemoveNestedField o ["metadata"; f] !! k = o !! k).
    { intros o f. cbn [RemoveNestedField].
      destruct (o !! "metadata") as [[| | | | | |m]|]; try done;
        by rewrite lookup_insert_ne. }
    destruct (decide (name = "")), (decide (namespace = ""));
      repeat first [rewrite Hset | rewrite Hremove];
      unfold setNestedField; cbn [SetNestedField];
      by rewrite !lookup_insert_ne by done.
Qed.

End Ownership.

Lemma setNestedField_metadata_frame (o : Unstructured) (v : value) (f k : string) :
  k <> "metadata" -> setNestedField o v ["metadata"; f] !! k = o !! k.
Proof.
  intros Hk. unfold setNestedField. cbn [SetNestedField].
  destruct (o !! "metadata") as [[| | | | | |m]|]; cbn [obind]; try done;
    by rewrite lookup_insert_ne.
Qed.

Lemma executions_none_Get (namespace name : string) (w : World) :
  executions namespace name w = [] ->
  cluster.Get namespace name w = Err cluster.NotFound /\
  existsb (cluster.keyed namespace name) (objects w) = false.
Proof.
  unfold executions, cluster.Get. intros Hnone.
  induction (objects w) as [|o objs IH]; [done|].
  cbn in Hnone |- *. destruct (cluster.keyed namespace name o); [discriminate|].
  by apply IH.
Qed.

(** Lemma: [create], given a rendered job without owner references and a
    world without execution under its key, adds the execution, owned by
    the addon through one reference that is not controlling. *)
Lemma create_owned (addonGroup : string) (addon : Addon) (wp : Unstructured) (w : World) :
  owner.GetOwnerReferences wp = [] ->
  writable wp = true ->
  executions (GetNamespace wp) (GetName wp) w = [] ->
  exists created event,
    create addonGroup addon wp w
    = (Return (Pending, None),
       {| objects := objects w ++ [created]; events := events w ++ [event] |}) /\
    owner.GetOwnerReferences created
    = [ {| owner.APIVersion := addonGroup +:+ "/v1alpha1";
           owner.Kind := "Addon";
           owner.RefName := Name addon;
           owner.RefUID := UID addon;
           owner.Controller := Some false;
           owner.BlockOwnerDeletion := Some true |} ] /\
    key created = key wp /\
    EventReason event = "Created" /\
    (forall k, k ∉ ["apiVersion"; "kind"; "metadata"] -> created !! k = wp !! k).
Proof.
  intros Hnone Hwritable Hfree.
  destruct (executions_none_Get _ _ _ Hfree) as [Hget Hexists].
  unfold create.
  set (stamped := SetName (GetName wp) (SetNamespace (GetNamespace wp)
                    (SetGroupVersionKind "argoproj.io" "v1alpha1" "Workflow" wp))).
  destruct (stamp_owner (GetNamespace wp) (GetName wp) wp) as (Hrefs & Hstamped & Hframe).
  fold stamped in Hrefs, Hstamped, Hframe. rewrite Hnone in Hrefs.
  unfold owner.SetControllerReference. rewrite Hrefs. cbn [owner.lastSame obind app].
  set (ref := owner.NewControllerRef _ _ _ _).
  set (owned := owner.SetOwnerReferences [ref] stamped).
  assert (Hownedw : writable owned = true) by (apply writable_set; auto).
  assert (Hownedrefs : owner.GetOwnerReferences owned = [ref])
    by (apply GetOwnerReferences_SetOwnerReferences; auto).
  rewrite Hownedrefs.
  cbn [notControlling owner.Kind ref owner.NewControllerRef owner.Controller].
  change (String.eqb (strings.ToLower "Addon") "addon") with true. cbv iota.
  set (ref' := owner.Build_OwnerReference _ _ _ _ _ _).
  assert (Hkey : key (owner.SetOwnerReferences [ref'] owned) = key wp).
  { subst owned. rewrite !key_SetOwnerReferences. subst stamped.
    pose proof (key_SetGroupVersionKind "argoproj.io" "v1alpha1" "Workflow" wp) as Hgvk.
    injection Hgvk as Hns Hname. rewrite <- Hns, <- Hname at 1.
    rewrite key_stamp. unfold key. by rewrite Hns, Hname. }
  set (created := owner.SetOwnerReferences [ref'] owned) in *.
  assert (Hns : GetNamespace created = GetNamespace wp) by exact (f_equal fst Hkey).
  assert (Hname : GetName created = GetName wp) by exact (f_equal snd Hkey).
  unfold cluster.Create. rewrite Hns, Hname, Hexists.
  exists created. eexists. split; [reflexivity|].
  split; [by apply GetOwnerReferences_SetOwnerReferences|].
  split; [exact Hkey|]. split; [reflexivity|]. subst created.
  intros k Hk. subst owned. unfold owner.SetOwnerReferences.
  rewrite !setNestedField_metadata_frame by (intros ->; apply Hk; set_solver).
  apply Hframe; intros ->; apply Hk; set_solver.
Qed.

(** X8: submitting a rendered job that has no owner references, to a world
    that holds no execution under its key, creates the execution and
    returns Pending.  The execution is owned by the addon through one
    owner reference, which names the addon's kind, name and UID and is
    marked as not controlling; it has the key of the rendered job and,
    outside [apiVersion], [kind] and [metadata], its fields; one event is
    recorded. *)
Theorem submit_creates_owned (parseRFC3339 : string -> option Z) (addonGroup : string)
  (addon : Addon) (wp : Unstructured) (w : World) :
  owner.GetOwnerReferences wp = [] ->
  writable wp = true ->
  executions (GetNamespace wp) (GetName wp) w = [] ->
  exists created event,
    submit parseRFC3339 addonGroup addon wp w
    = (Return (Pending, None),
       {| objects := objects w ++ [created]; events := events w ++ [event] |}) /\
    owner.GetOwnerReferences created
    = [ {| owner.APIVersion := addonGroup +:+ "/v1alpha1";
           owner.Kind := "Addon";
           owner.RefName := Name addon;
           owner.RefUID := UID addon;
           owner.Controller := Some false;
           owner.BlockOwnerDeletion := Some true |} ] /\
    key created = key wp /\
    EventReason event = "Created" /\
    (forall k, k ∉ ["apiVersion"; "kind"; "metadata"] -> created !! k = wp !! k).
Proof.
  intros Hnone Hwritable Hfree.
  destruct (executions_none_Get _ _ _ Hfree) as [Hget _].
  unfold submit, findWorkflowByName. rewrite Hget.
  change (cluster.IsNotFound cluster.NotFound) with true. cbv iota.
  by apply create_owned.
Qed.

(** The rendered job of the addon, submitted to an empty namespace. *)
Lemma submit_creates_owned_witness :
  exists created event,
    submit rfc3339.parse example.addonGroup example.addon example.rendered (example.world [])
    = (Return (Pending, None), {| objects := [created]; events := [event] |}) /\
    owner.GetOwnerReferences created
    = [ {| owner.APIVersion := "addonmgr.keikoproj.io/v1alpha1";
           owner.Kind := "Addon";
           owner.RefName := "addon-1";
           owner.RefUID := "0b5c8a4e";
           owner.Controller := Some false;
           owner.BlockOwnerDeletion := Some true |} ] /\
    created !! "spec" = example.rendered !! "spec".
Proof.
  destruct (submit_creates_owned rfc3339.parse example.addonGroup example.addon
              example.rendered (example.world []))
    as (created & event & Hrun & Hrefs & _ & _ & Hframe).
  - vm_compute. reflexivity.
  - vm_compute. reflexivity.
  - vm_compute. reflexivity.
  - exists created, event. split; [exact Hrun|]. split; [exact Hrefs|].
    apply Hframe. by apply (bool_decide_unpack _).
Defined.

Lemma filter_none {A} (f : A -> bool) (l : list A) :
  (forall x, In x l -> f x = false) -> List.filter f l = [].
Proof.
  induction l as [|x l IH]; intros Hf; [reflexivity|]. cbn.
  rewrite (Hf x) by by left. apply IH. intros y Hy. apply Hf. by right.
Qed.

(** X9: an execution that ran for the current checksum before the addon
    moved on, and that is found under the key of the rendered job once the
    addon is back at that checksum, is replaced over two calls.  When the
    most recent execution of the addon lacks the current checksum and the
    phases of the listed executions can be read, the first [submit] returns
    Pending and leaves no execution under the key; the second one returns
    Pending and creates the execution anew, the only one under the key. *)
Theorem submit_replaces_stale (parseRFC3339 : string -> option Z) (addonGroup : string)
  (addon : Addon) (wp wfv1 mostRecentWorkflow : Unstructured) (w : World)
  (workflows : list Unstructured) (t : Z) :
  GetNamespace wp = Namespace addon ->
  owner.GetOwnerReferences wp = [] ->
  writable wp = true ->
  cluster.Get (GetNamespace wp) (GetName wp) w = Ok wfv1 ->
  stale addon wfv1 = true ->
  cluster.List (Namespace addon) w = Ok workflows ->
  mostRecent parseRFC3339 addon workflows 0 None = Next (t, Some mostRecentWorkflow) ->
  strings.Contains (GetName mostRecentWorkflow) (Checksum addon) = false ->
  Forall (fun workflow => is_Some (phaseOf workflow)) workflows ->
  exists w1 created event,
    submit parseRFC3339 addonGroup addon wp w = (Return (Pending, None), w1) /\
    executions (GetNamespace wp) (GetName wp) w1 = [] /\
    submit parseRFC3339 addonGroup addon wp w1
    = (Return (Pending, None),
       {| objects := objects w1 ++ [created]; events := events w1 ++ [event] |}) /\
    key created = key wp /\
    executions (GetNamespace wp) (GetName wp)
      {| objects := objects w1 ++ [created]; events := events w1 ++ [event] |} = [created].
Proof.
  intros Hns Hnone Hwritable Hget Hstale Hlist Hrecent Hsum Hall.
  destruct (Get_key _ _ _ _ Hget) as [Hin Hkey].
  assert (Hlisted : In wfv1 workflows).
  { unfold cluster.List in Hlist. injection Hlist as <-. apply List.filter_In.
    split; [by apply list_elem_of_In|]. injection Hkey as -> _. rewrite Hns.
    apply String.eqb_refl. }
  set (w1 := {| objects := List.filter (fun o => negb (removed addon workflows o)) (objects w);
                events := events w |}).
  assert (Hfirst : submit parseRFC3339 addonGroup addon wp w = (Return (Pending, None), w1)).
  { unfold submit, findWorkflowByName, deleteCollisionWorkflows.
    rewrite Hget, Hlist, Hrecent, Hsum. cbn [negb]. rewrite deleteOld_run by done.
    cbn [orb].
    assert (existsb (stale addon) workflows = true) as ->; [|reflexivity].
    apply existsb_exists. eauto. }
  assert (Hgone : executions (GetNamespace wp) (GetName wp) w1 = []).
  { unfold executions, w1. cbn [objects]. rewrite filter_twice.
    apply filter_none. intros o _.
    destruct (cluster.keyed (GetNamespace wp) (GetName wp) o) eqn:Hsame;
      [|by rewrite andb_false_r].
    assert (removed addon workflows o = true) as ->; [|reflexivity].
    apply existsb_exists. exists wfv1. split; [done|]. rewrite Hstale.
    injection Hkey as _ ->. by rewrite <- Hns. }
  destruct (create_owned addonGroup addon wp w1 Hnone Hwritable Hgone)
    as (created & event & Hcreate & _ & Hkey' & _).
  exists w1, created, event. split; [exact Hfirst|]. split; [exact Hgone|].
  split.
  - destruct (executions_none_Get _ _ _ Hgone) as [Hget1 _].
    unfold submit, findWorkflowByName. rewrite Hget1.
    change (cluster.IsNotFound cluster.NotFound) with true. cbv iota. exact Hcreate.
  - split; [exact Hkey'|]. unfold executions in *. cbn [objects].
    rewrite List.filter_app, Hgone. cbn.
    by rewrite (proj2 (keyed_key _ _ _) Hkey').
Qed.

(** The addon is back at checksum [aaaa]; the execution named with [aaaa]
    succeeded before the one named with [bbbb] was started. *)
Lemma submit_replaces_stale_witness :
  let wp : Unstructured :=
    {[ "metadata" := VMap {[ "namespace" := VString (Namespace example.addon);
                            "name" := VString "addon-1-prereqs-aaaa-wf" ]};
       "spec" := VMap ∅ ]} in
  exists w1 created event,
    submit rfc3339.parse example.addonGroup example.reverted wp
      (example.world [example.wfA; example.wfB]) = (Return (Pending, None), w1) /\
    objects w1 = [example.wfB] /\
    submit rfc3339.parse example.addonGroup example.reverted wp w1
    = (Return (Pending, None),
       {| objects := objects w1 ++ [created]; events := events w1 ++ [event] |}).
Proof.
  intros wp.
  destruct (submit_replaces_stale rfc3339.parse example.addonGroup example.reverted wp
              example.wfA example.wfB (example.world [example.wfA; example.wfB])
              [example.wfA; example.wfB] 63713520000%Z)
    as (w1 & created & event & Hfirst & _ & Hsecond & _).
  - vm_compute. reflexivity.
  - vm_compute. reflexivity.
  - vm_compute. reflexivity.
  - vm_compute. reflexivity.
  - vm_compute. reflexivity.
  - vm_compute. reflexivity.
  - vm_compute. reflexivity.
  - vm_compute. reflexivity.
  - apply List.Forall_cons; [|apply List.Forall_cons; [|apply List.Forall_nil]];
      vm_compute; by eexists.
  - exists w1, created, event. split; [exact Hfirst|]. split; [|exact Hsecond].
    transitivity
      (objects (submit rfc3339.parse example.addonGroup example.reverted wp
                  (example.world [example.wfA; example.wfB])).2);
      [by rewrite Hfirst|vm_compute; reflexivity].
Defined.

(** ** Frames of the rendering steps *)

Section Frames.

Variable addon : Addon.

(** Lemma: what the injector returns on a workflow of the expected
    shapes. *)
Lemma configureGlobalWFParameters_result (additionalConfigs dataParams : list (string * string))
  (wf : Unstructured) :
  injectable wf = true ->
  let spec := orEmpty (wf !! "spec") in
  configureGlobalWFParameters addon additionalConfigs dataParams wf
  = Return (true,
            <["spec" := VMap (<["arguments" := VMap (<["parameters" :=
                VSlice (parametersOf wf ++ addonParameters addon additionalConfigs dataParams)]>
              (orEmpty (spec !! "arguments")))]> spec)]> wf).
Proof.
  unfold injectable, configureGlobalWFParameters, SetNestedSlice.
  unfold parametersOf, NestedFieldNoCopy. cbn [walk].
  destruct (wf !! "spec") as [[| | | | | |spec]|] eqn:Hspec; try discriminate.
  cbn [orEmpty].
  destruct (spec !! "arguments") as [[| | | | | |arguments]|] eqn:Harguments;
    try discriminate; cbn [isNil orEmpty].
  - intros _. rewrite lookup_insert_eq, lookup_empty. cbn [isNil].
    rewrite lookup_insert_eq. erewrite SetNestedField_three by apply lookup_insert_eq.
    by rewrite !insert_insert_eq.
  - rewrite Harguments.
    destruct (arguments !! "parameters") as [[| | | | |wfParams|]|] eqn:Hparameters;
      try discriminate; intros _; cbn [isNil]; rewrite ?lookup_insert_eq, ?Hparameters;
      erewrite SetNestedField_three by apply lookup_insert_eq;
      by rewrite !insert_insert_eq.
  - intros _. rewrite lookup_insert_eq, lookup_empty. cbn [isNil].
    rewrite lookup_insert_eq. erewrite SetNestedField_three by apply lookup_insert_eq.
    by rewrite !insert_insert_eq.
Qed.

(** Lemma: the injector returns only on a workflow of the expected
    shapes. *)
Lemma configureGlobalWFParameters_Return (additionalConfigs dataParams : list (string * string))
  (wf : Unstructured) (r : bool * Unstructured) :
  configureGlobalWFParameters addon additionalConfigs dataParams wf = Return r ->
  injectable wf = true.
Proof.
  intros Hrun. destruct (injectable wf) eqn:Hshape; [reflexivity|].
  by rewrite configureGlobalWFParameters_wrong_shape in Hrun.
Qed.

End Frames.

(** X10: the injector writes [spec.arguments.parameters] and nothing
    else.  When it returns, it returns [true]; the fields of the workflow
    other than [spec], the fields of [spec] other than [arguments] and the
    fields of [spec.arguments] other than [parameters] are as before, the
    default for the finish TTL and the templates among them. *)
Theorem configureGlobalWFParameters_frame (addon : Addon)
  (additionalConfigs dataParams : list (string * string)) (wf wf' : Unstructured) (ok : bool) :
  configureGlobalWFParameters addon additionalConfigs dataParams wf = Return (ok, wf') ->
  ok = true /\
  (forall k, k <> "spec" -> wf' !! k = wf !! k) /\
  exists spec spec' arguments' : gmap string value,
    wf !! "spec" = Some (VMap spec) /\
    wf' !! "spec" = Some (VMap spec') /\
    (forall k, k <> "arguments" -> spec' !! k = spec !! k) /\
    spec' !! "arguments" = Some (VMap arguments') /\
    (forall k, k <> "parameters" -> arguments' !! k = orEmpty (spec !! "arguments") !! k).
Proof.
  intros Hrun. pose proof (configureGlobalWFParameters_Return _ _ _ _ _ Hrun) as Hshape.
  rewrite configureGlobalWFParameters_result in Hrun by done.
  injection Hrun as <- <-. split; [reflexivity|].
  split; [intros k Hk; by apply lookup_insert_ne|].
  unfold injectable in Hshape.
  destruct (wf !! "spec") as [[| | | | | |spec]|] eqn:Hspec; try discriminate.
  exists spec. eexists _, _. cbn [orEmpty].
  split; [reflexivity|]. split; [apply lookup_insert_eq|].
  split; [intros k Hk; by apply lookup_insert_ne|].
  split; [apply lookup_insert_eq|]. intros k Hk. by apply lookup_insert_ne.
Qed.

(** The rendered job keeps its finish TTL and its templates. *)
Lemma configureGlobalWFParameters_frame_witness :
  exists wf' spec',
    configureGlobalWFParameters example.addon [("zone", "a")]
      [("replicas", "2"); ("tier", "web")] example.rendered = Return (true, wf') /\
    wf' !! "spec" = Some (VMap spec') /\
    spec' !! "ttlSecondsAfterFinished" = Some (VInt64 259200) /\
    spec' !! "templates" = Some (VSlice []) /\
    wf' !! "metadata" = example.rendered !! "metadata".
Proof.
  destruct (configureGlobalWFParameters example.addon [("zone", "a")]
              [("replicas", "2"); ("tier", "web")] example.rendered)
    as [[ok wf']|] eqn:Hrun; [|vm_compute in Hrun; discriminate].
  destruct (configureGlobalWFParameters_frame _ _ _ _ _ _ Hrun)
    as (-> & Hother & spec & spec' & arguments' & Hspec & Hspec' & Hfields & _).
  exists wf', spec'. split; [reflexivity|]. split; [exact Hspec'|].
  rewrite !Hfields by discriminate. rewrite Hother by discriminate.
  vm_compute in Hspec. injection Hspec as <-. repeat split; vm_compute; reflexivity.
Defined.

(** ** Workflows without artifacts *)

Section Passing.

Variable yamlUnmarshal : string -> option (gmap string value).
Variable yamlMarshal : gmap string value -> option string.
Variable addonGroup : string.
Variable addon : Addon.
Variable wt : WorkflowType.

Lemma forallb_fixed {A} (p : A -> bool) (f : A -> outcome A) (l : list A) :
  (forall a, p a = true -> f a = Ok a) -> forallb p l = true -> omapM f l = Ok l.
Proof.
  intros Hf Hall. apply omapM_fixed. apply List.Forall_forall. intros a Ha.
  apply Hf. by apply (proj1 (forallb_forall p l) Hall).
Qed.

(** Lemma: a step object without artifacts is left as it is. *)
Lemma processArtifacts_none (step : value) :
  noArtifacts step = true ->
  processArtifacts yamlUnmarshal yamlMarshal addonGroup addon step wt = Ok step.
Proof.
  unfold noArtifacts, processArtifacts. destruct step as [| | | | | |step]; try discriminate.
  by destruct (NestedFieldNoCopy step ["arguments"; "artifacts"]) as [[]| |].
Qed.

Lemma processSteps_plain (steps : value) :
  plainSteps steps = true ->
  processSteps yamlUnmarshal yamlMarshal addonGroup addon wt steps = Ok steps.
Proof.
  unfold plainSteps, processSteps. destruct steps as [| | | | |steps|]; try discriminate.
  intros Hall. by rewrite (forallb_fixed noArtifacts _ _ processArtifacts_none Hall).
Qed.

Lemma processTemplate_plain (template : value) :
  plainTemplate template = true ->
  processTemplate yamlUnmarshal yamlMarshal addonGroup addon wt template = Ok template.
Proof.
  unfold plainTemplate, processTemplate, NestedFieldNoCopy. cbn [walk].
  destruct template as [| | | | | |template]; try discriminate.
  destruct (template !! "steps") as [[| | | | |allSteps|]|] eqn:Hsteps; try discriminate;
    [|reflexivity].
  intros Hall. rewrite (forallb_fixed plainSteps _ _ processSteps_plain Hall). cbn [obind].
  by rewrite insert_id.
Qed.

(** Lemma: templates without artifacts are left as they are. *)
Lemma processTemplates_plain (templates : list value) :
  forallb plainTemplate templates = true ->
  omapM (processTemplate yamlUnmarshal yamlMarshal addonGroup addon wt) templates
  = Ok templates.
Proof. apply forallb_fixed, processTemplate_plain. Qed.

End Passing.

(** X11: a workflow without artifacts passes the artifact post-processor
    unchanged: when neither [spec] nor any step of any template brings
    [arguments.artifacts], [configureWorkflowArtifacts] returns the
    workflow as it was, whatever the YAML codec and the role. *)
Theorem configureWorkflowArtifacts_plain
  (yamlUnmarshal : string -> option (gmap string value))
  (yamlMarshal : gmap string value -> option string)
  (addonGroup : string) (addon : Addon) (wt : WorkflowType)
  (wf spec : Unstructured) (templates : list value) :
  wf !! "spec" = Some (VMap spec) ->
  noArtifacts (VMap spec) = true ->
  spec !! "templates" = Some (VSlice templates) ->
  forallb plainTemplate templates = true ->
  configureWorkflowArtifacts yamlUnmarshal yamlMarshal addonGroup addon wf wt = Ok wf.
Proof.
  intros Hspec Hnone Htemplates Hplain.
  unfold configureWorkflowArtifacts, NestedFieldNoCopy. cbn [walk]. rewrite Hspec.
  rewrite processArtifacts_none by done. cbn [obind walk].
  rewrite lookup_insert_eq, Htemplates, processTemplates_plain by done.
  cbn [obind]. unfold setNestedField. cbn [SetNestedField]. rewrite lookup_insert_eq.
  cbn [obind]. f_equal. rewrite insert_insert_eq.
  by rewrite (insert_id spec), (insert_id wf).
Qed.

(** A workflow of one template with two steps that only name their
    templates. *)
Lemma configureWorkflowArtifacts_plain_witness :
  let step (name : string) : value :=
    VMap {[ "name" := VString name; "template" := VString "submit" ]} in
  let templates : list value :=
    [VMap {[ "name" := VString "main";
             "steps" := VSlice [VSlice [step "prereqs"]; VSlice [step "install"]] ]};
     VMap {[ "name" := VString "submit" ]}] in
  let spec : gmap string value :=
    {[ "entrypoint" := VString "main"; "templates" := VSlice templates ]} in
  let wf : Unstructured := {[ "kind" := VString "Workflow"; "spec" := VMap spec ]} in
  configureWorkflowArtifacts flatyaml.unmarshal flatyaml.marshal example.addonGroup
    example.addon wf example.withRole = Ok wf.
Proof.
  intros step templates spec wf.
  apply (configureWorkflowArtifacts_plain _ _ _ _ _ wf spec templates); vm_compute; reflexivity.
Defined.

(** ** Templates that make [Install] panic *)

(** X12: a template whose [spec] is a map without [arguments] and without
    a list under [templates] makes [Install] panic: the template is
    rendered and the parameters are injected, and the artifact
    post-processor then asserts that [spec.templates] is a list.  The
    world is untouched. *)
Theorem Install_without_templates
  (yamlUnmarshal : string -> option (gmap string value))
  (yamlMarshal : gmap string value -> option string)
  (parseRFC3339 : string -> option Z) (addonGroup : string) (addon : Addon)
  (wt : WorkflowType) (name : string) (additionalConfigs dataParams : list (string * string))
  (w : World) (data spec : gmap string value) :
  yamlUnmarshal (Template wt) = Some data ->
  data !! "spec" = Some (VMap spec) ->
  spec !! "arguments" = None ->
  (forall templates, spec !! "templates" <> Some (VSlice templates)) ->
  Install yamlUnmarshal yamlMarshal parseRFC3339 addonGroup addon wt name
    additionalConfigs dataParams w = (Panic, w).
Proof.
  intros Hdata Hspec Harguments Htemplates.
  unfold Install, parse. rewrite Hdata, Hspec.
  set (spec' := if isNil _ then _ else _).
  assert (Hargs' : spec' !! "arguments" = None).
  { unfold spec'. destruct (isNil _); [by rewrite lookup_insert_ne|done]. }
  assert (Htemplates' : spec' !! "templates" = spec !! "templates").
  { unfold spec'. destruct (isNil _); [by rewrite lookup_insert_ne|done]. }
  set (wf := SetName _ _).
  rewrite configureGlobalWFParameters_result
    by (unfold injectable; by rewrite lookup_insert_eq, Hargs').
  rewrite !lookup_insert_eq. cbn [orEmpty]. rewrite Hargs'. cbn [orEmpty].
  rewrite insert_insert_eq.
  unfold configureWorkflowArtifacts, NestedFieldNoCopy. cbn [walk].
  rewrite lookup_insert_eq. unfold processArtifacts, NestedFieldNoCopy. cbn [walk].
  rewrite !lookup_insert_eq. rewrite lookup_insert_ne, lookup_empty by done.
  cbn [obind walk]. rewrite !lookup_insert_eq, insert_insert_eq.
  rewrite lookup_insert_ne, Htemplates' by done.
  destruct (spec !! "templates") as [[| | | | |templates|]|] eqn:Hlist; try reflexivity.
  by destruct (Htemplates templates).
Qed.

(** The template "spec: {}". *)
Lemma Install_without_templates_witness :
  let unmarshal (_ : string) : option (gmap string value) := Some {[ "spec" := VMap ∅ ]} in
  Install unmarshal flatyaml.marshal rfc3339.parse example.addonGroup example.addon
    example.workflowType "addon-1-prereqs-bbbb-wf" [] [] (example.world [])
  = (Panic, example.world []).
Proof.
  intros unmarshal.
  apply (Install_without_templates unmarshal flatyaml.marshal rfc3339.parse example.addonGroup
           example.addon example.workflowType "addon-1-prereqs-bbbb-wf" [] []
           (example.world []) {[ "spec" := VMap ∅ ]} ∅);
    try reflexivity.
  intros templates. by rewrite lookup_empty.
Defined.

(** X13: an artifact without text makes the post-processing of a step
    panic.  When [raw.data] is absent, no string or empty, the only piece
    is the empty text; parsed to a document without a string under [kind],
    as the YAML codec parses it to no entry at all, it fails the unchecked
    assertion on [kind]. *)
Theorem processArtifacts_empty_data
  (yamlUnmarshal : string -> option (gmap string value))
  (yamlMarshal : gmap string value -> option string)
  (addonGroup : string) (addon : Addon) (wt : WorkflowType)
  (step artifact empty : gmap string value) (artifacts : list value) :
  NestedFieldNoCopy step ["arguments"; "artifacts"] = Found (VSlice (VMap artifact :: artifacts)) ->
  rawData artifact = "" ->
  yamlUnmarshal "" = Some empty ->
  (forall kind, empty !! "kind" <> Some (VString kind)) ->
  processArtifacts yamlUnmarshal yamlMarshal addonGroup addon (VMap step) wt = Abort.
Proof.
  intros Hartifacts Hdata Hparse Hkind.
  unfold processArtifacts. rewrite Hartifacts. cbn [omapM]. unfold processArtifact at 1.
  fold (rawData artifact). rewrite Hdata. unfold processData.
  change (strings.Split "" separator) with [""]. cbn [omapM].
  unfold processResource, patchResource. rewrite Hparse.
  destruct (empty !! "kind") as [[| | | |kind| |]|] eqn:Hempty; try reflexivity.
  by destruct (Hkind kind).
Qed.

(** A step with one artifact that is fetched from a bucket. *)
Lemma processArtifacts_empty_data_witness :
  let artifact : gmap string value :=
    {[ "name" := VString "doc"; "s3" := VMap {[ "key" := VString "doc.yaml" ]} ]} in
  let step : gmap string value :=
    {[ "name" := VString "install";
       "arguments" := VMap {[ "artifacts" := VSlice [VMap artifact] ]} ]} in
  processArtifacts flatyaml.unmarshal flatyaml.marshal example.addonGroup example.addon
    (VMap step) example.workflowType = Abort.
Proof.
  intros artifact step.
  apply (processArtifacts_empty_data flatyaml.unmarshal flatyaml.marshal example.addonGroup
           example.addon example.workflowType step artifact ∅ []);
    try (vm_compute; reflexivity).
  intros kind. by rewrite lookup_empty.
Defined.

(** ** A first installation *)

Section Fresh.

Variable yamlUnmarshal : string -> option (gmap string value).
Variable addon : Addon.

(** Lemma: what [parse] gives the rendered job besides [spec]: the key
    made of the addon's namespace and the requested name, no owner
    references, and a [metadata] that can be written to. *)
Lemma parse_stamped (wt : WorkflowType) (name : string) (wf : Unstructured) :
  parse yamlUnmarshal addon wt name = Ok wf ->
  key wf = (Namespace addon, name) /\
  owner.GetOwnerReferences wf = [] /\
  writable wf = true.
Proof.
  unfold parse. destruct (yamlUnmarshal (Template wt)) as [data|]; [|discriminate].
  destruct (data !! "spec") as [[| | | | | |spec]|]; try discriminate.
  intros [= <-].
  set (spec' := if isNil _ then _ else _). clearbody spec'.
  unfold key, owner.GetOwnerReferences, writable, GetName, GetNamespace, getNestedString,
    NestedString, NestedFieldNoCopy, SetName, SetNamespace, SetGroupVersionKind, setNestedField.
  destruct (decide (Namespace addon = "")) as [Hns|Hns],
           (decide (name = "")) as [Hname|Hname];
    rewrite ?Hns, ?Hname; cbn [SetNestedField RemoveNestedField walk obind];
    repeat (rewrite ?lookup_insert_eq, ?lookup_empty;
            rewrite ?lookup_insert_ne by discriminate;
            cbn [SetNestedField RemoveNestedField walk obind]);
    done.
Qed.

End Fresh.

(** X14: a first installation.  When the template renders to a job of
    the shapes the injector expects, that brings no artifacts, and the
    addon's namespace holds no execution under the requested name,
    [Install] returns Pending and no error, adds one execution and records
    one event.  The execution has the addon's namespace and the requested
    name, is owned by the addon through one reference that is not
    controlling, and carries the rendered [spec] with the addon's
    parameters appended to [spec.arguments.parameters]. *)
Theorem Install_creates
  (yamlUnmarshal : string -> option (gmap string value))
  (yamlMarshal : gmap string value -> option string)
  (parseRFC3339 : string -> option Z) (addonGroup : string) (addon : Addon)
  (wt : WorkflowType) (name : string) (additionalConfigs dataParams : list (string * string))
  (w : World) (wp : Unstructured) (spec : gmap string value) (templates : list value) :
  parse yamlUnmarshal addon wt name = Ok wp ->
  injectable wp = true ->
  wp !! "spec" = Some (VMap spec) ->
  noArtifacts (VMap spec) = true ->
  spec !! "templates" = Some (VSlice templates) ->
  forallb plainTemplate templates = true ->
  executions (Namespace addon) name w = [] ->
  exists created event,
    Install yamlUnmarshal yamlMarshal parseRFC3339 addonGroup addon wt name
      additionalConfigs dataParams w
    = (Return (Pending, None),
       {| objects := objects w ++ [created]; events := events w ++ [event] |}) /\
    key created = (Namespace addon, name) /\
    owner.GetOwnerReferences created
    = [ {| owner.APIVersion := addonGroup +:+ "/v1alpha1";
           owner.Kind := "Addon";
           owner.RefName := Name addon;
           owner.RefUID := UID addon;
           owner.Controller := Some false;
           owner.BlockOwnerDeletion := Some true |} ] /\
    parametersOf created
    = parametersOf wp ++ addonParameters addon additionalConfigs dataParams /\
    exists spec', created !! "spec" = Some (VMap spec') /\
                  forall k, k <> "arguments" -> spec' !! k = spec !! k.
Proof.
  intros Hparse Hshape Hspec Hnone Htemplates Hplain Hfree.
  destruct (parse_stamped _ _ _ _ _ Hparse) as (Hkey & Hrefs & Hwritable).
  unfold Install. rewrite Hparse.
  rewrite configureGlobalWFParameters_result by done.
  rewrite Hspec. cbn [orEmpty].
  set (arguments' := <["parameters" := _]> _).
  set (spec' := <["arguments" := VMap arguments']> spec).
  set (wp' := <["spec" := VMap spec']> wp).
  assert (Hartifacts : arguments' !! "artifacts" = orEmpty (spec !! "arguments") !! "artifacts")
    by (unfold arguments'; by rewrite lookup_insert_ne).
  assert (Hnone' : noArtifacts (VMap spec') = true).
  { revert Hnone. unfold noArtifacts, NestedFieldNoCopy, spec'. cbn [walk].
    rewrite lookup_insert_eq, Hartifacts.
    destruct (spec !! "arguments") as [[| | | | | |arguments]|]; cbn [orEmpty];
      rewrite ?lookup_empty; done. }
  assert (Htemplates' : spec' !! "templates" = Some (VSlice templates))
    by (unfold spec'; by rewrite lookup_insert_ne).
  assert (Hpass : configureWorkflowArtifacts yamlUnmarshal yamlMarshal addonGroup addon wp' wt
                  = Ok wp').
  { unfold configureWorkflowArtifacts, NestedFieldNoCopy, wp'. cbn [walk].
    rewrite lookup_insert_eq, processArtifacts_none by done. cbn [obind walk].
    rewrite !lookup_insert_eq, Htemplates', processTemplates_plain by done.
    cbn [obind]. unfold setNestedField. cbn [SetNestedField]. rewrite lookup_insert_eq.
    cbn [obind]. f_equal. rewrite !insert_insert_eq. by rewrite (insert_id spec'). }
  rewrite Hpass.
  assert (Hmetadata : forall f, NestedFieldNoCopy wp' ["metadata"; f]
                                = NestedFieldNoCopy wp ["metadata"; f])
    by (intros f; unfold wp', NestedFieldNoCopy; cbn [walk]; by rewrite lookup_insert_ne).
  assert (Hkey' : key wp' = key wp).
  { unfold key, GetNamespace, GetName. f_equal; by apply getNestedString_walk. }
  assert (Hns : GetNamespace wp' = Namespace addon)
    by exact (f_equal fst (eq_trans Hkey' Hkey)).
  assert (Hname : GetName wp' = name) by exact (f_equal snd (eq_trans Hkey' Hkey)).
  destruct (create_owned addonGroup addon wp' w) as (created & event & Hrun & Hown & Hk & _ & Hf).
  - rewrite <- Hrefs. by apply GetOwnerReferences_walk.
  - unfold writable, wp' in *. by rewrite lookup_insert_ne.
  - by rewrite Hns, Hname.
  - exists created, event.
    assert (Hcreated : created !! "spec" = Some (VMap spec')).
    { rewrite Hf by (by apply (bool_decide_unpack _)). apply lookup_insert_eq. }
    split.
    { unfold submit, findWorkflowByName. rewrite Hns, Hname.
      destruct (executions_none_Get _ _ _ Hfree) as [-> _].
      change (cluster.IsNotFound cluster.NotFound) with true. cbv iota. exact Hrun. }
    split; [by rewrite Hk, Hkey', Hkey|]. split; [exact Hown|]. split.
    + unfold parametersOf at 1, NestedFieldNoCopy. cbn [walk]. rewrite Hcreated.
      unfold spec'. rewrite lookup_insert_eq. unfold arguments'. by rewrite lookup_insert_eq.
    + exists spec'. split; [exact Hcreated|]. intros k Hk'. unfold spec'.
      by rewrite lookup_insert_ne.
Qed.

(** The addon is installed for the first time beside an execution of an
    earlier checksum: the template has one entry point and no parameters
    of its own. *)
Lemma Install_creates_witness :
  let templates : list value := [VMap {[ "name" := VString "main" ]}] in
  let unmarshal (_ : string) : option (gmap string value) :=
    Some {[ "spec" := VMap {[ "entrypoint" := VString "main";
                             "templates" := VSlice templates ]} ]} in
  exists created event,
    Install unmarshal flatyaml.marshal rfc3339.parse example.addonGroup example.addon
      example.workflowType "addon-1-prereqs-bbbb-wf" [("zone", "a")]
      [("replicas", "2"); ("tier", "web")] (example.world [example.wfA])
    = (Return (Pending, None), {| objects := [example.wfA; created]; events := [event] |}) /\
    key created = ("addon-manager-system", "addon-1-prereqs-bbbb-wf") /\
    parametersOf created
    = [parameter "namespace" "ns1"; parameter "clusterName" "c1";
       parameter "clusterRegion" "us-west-2"; parameter "zone" "a";
       parameter "replicas" "2"; parameter "tier" "web"].
Proof.
  intros templates unmarshal.
  destruct (Install_creates unmarshal flatyaml.marshal rfc3339.parse example.addonGroup
              example.addon example.workflowType "addon-1-prereqs-bbbb-wf" [("zone", "a")]
              [("replicas", "2"); ("tier", "web")] (example.world [example.wfA])
              _
              {[ "entrypoint" := VString "main";
                 "templates" := VSlice templates;
                 "ttlSecondsAfterFinished" := VInt64 259200 ]}
              templates eq_refl)
    as (created & event & Hrun & Hkey & _ & Hparameters & _);
    try (vm_compute; reflexivity).
  exists created, event. split; [exact Hrun|]. split; [exact Hkey|].
  rewrite Hparameters. vm_compute. reflexivity.
Defined.

(** ** Invariants of the world *)

Section Unique.

Variable parseRFC3339 : string -> option Z.
Variable addonGroup : string.
Variable addon : Addon.




End Unique.



(** ** Failures that leave the world as it is *)

(** X16: an artifact document that the YAML codec rejects fails the
    installation before anything is submitted.  When the first document of
    the first artifact of the workflow's own arguments does not parse,
    [Install] returns the phase Failed with an error that quotes the
    document, and the world is as before. *)
Theorem Install_unparsable_artifact
  (yamlUnmarshal : string -> option (gmap string value))
  (yamlMarshal : gmap string value -> option string)
  (parseRFC3339 : string -> option Z) (addonGroup : string) (addon : Addon)
  (wt : WorkflowType) (name : string) (additionalConfigs dataParams : list (string * string))
  (w : World) (wp : Unstructured) (spec artifact : gmap string value)
  (artifacts : list value) (doc : string) (docs : list string) :
  parse yamlUnmarshal addon wt name = Ok wp ->
  injectable wp = true ->
  wp !! "spec" = Some (VMap spec) ->
  NestedFieldNoCopy spec ["arguments"; "artifacts"] = Found (VSlice (VMap artifact :: artifacts)) ->
  strings.Split (rawData artifact) separator = doc :: docs ->
  yamlUnmarshal doc = None ->
  Install yamlUnmarshal yamlMarshal parseRFC3339 addonGroup addon wt name
    additionalConfigs dataParams w
  = (Return (Failed, Some ("unable to unmarshall artifact: " +:+ doc)), w).
Proof.
  intros Hparse Hshape Hspec Hartifacts Hsplit Hdoc.
  unfold Install. rewrite Hparse.
  rewrite configureGlobalWFParameters_result by done.
  rewrite Hspec. cbn [orEmpty].
  unfold configureWorkflowArtifacts, NestedFieldNoCopy. cbn [walk].
  rewrite lookup_insert_eq. unfold processArtifacts, NestedFieldNoCopy. cbn [walk].
  rewrite lookup_insert_eq.
  revert Hartifacts. unfold NestedFieldNoCopy. cbn [walk].
  destruct (spec !! "arguments") as [[| | | | | |arguments]|]; try discriminate.
  cbn [orEmpty]. rewrite lookup_insert_ne by done. intros Hartifacts.
  destruct (arguments !! "artifacts") as [artifacts'|]; [|discriminate].
  injection Hartifacts as ->.
  cbn [omapM]. unfold processArtifact at 1. fold (rawData artifact).
  unfold processData. rewrite Hsplit. cbn [omapM]. unfold processResource at 1.
  by rewrite Hdoc.
Qed.

(** The artifact of the workflow holds a text that is no mapping. *)
Lemma Install_unparsable_artifact_witness :
  let spec : gmap string value :=
    {[ "arguments" := VMap {[ "artifacts" := VSlice [VMap (example.artifact "not a mapping")] ]};
       "templates" := VSlice [];
       "ttlSecondsAfterFinished" := VInt64 60 ]} in
  let unmarshal (s : string) : option (gmap string value) :=
    if String.eqb s "spec: {}" then Some {[ "spec" := VMap spec ]} else flatyaml.unmarshal s in
  Install unmarshal flatyaml.marshal rfc3339.parse example.addonGroup example.addon
    example.workflowType "addon-1-prereqs-bbbb-wf" [] [] (example.world [example.wfA])
  = (Return (Failed, Some "unable to unmarshall artifact: not a mapping"),
     example.world [example.wfA]).
Proof.
  intros spec unmarshal.
  apply (Install_unparsable_artifact unmarshal flatyaml.marshal rfc3339.parse
           example.addonGroup example.addon example.workflowType "addon-1-prereqs-bbbb-wf"
           [] [] (example.world [example.wfA]) _ spec (example.artifact "not a mapping")
           [] "not a mapping" [] eq_refl);
    vm_compute; reflexivity.
Defined.

(** X17: a start time that cannot be read fails the submission.  When an
    execution exists under the key of the rendered job and an execution of
    the addon carries a [status.startedAt] that is no RFC3339 time, those
    of the addon listed before it being readable, [submit] returns the
    phase Failed with the error of the time parser; nothing is deleted or
    created, whatever is listed after it. *)
Theorem submit_unreadable_start (parseRFC3339 : string -> option Z) (addonGroup : string)
  (addon : Addon) (wp wfv1 : Unstructured) (w : World) (before after : list Unstructured)
  (broken : Unstructured) (status : gmap string value) (startedAt : string) :
  cluster.Get (GetNamespace wp) (GetName wp) w = Ok wfv1 ->
  cluster.List (Namespace addon) w = Ok (before ++ broken :: after) ->
  Forall (fun workflow => related addon workflow = true ->
                          is_Some (started parseRFC3339 workflow)) before ->
  related addon broken = true ->
  broken !! "status" = Some (VMap status) ->
  status !! "startedAt" = Some (VString startedAt) ->
  parseRFC3339 startedAt = None ->
  exists err, submit parseRFC3339 addonGroup addon wp w = (Return (Failed, Some err), w).
Proof.
  intros Hget Hlist Hbefore Hrelated Hstatus HstartedAt Htime.
  unfold submit, findWorkflowByName, deleteCollisionWorkflows. rewrite Hget, Hlist.
  destruct (mostRecent_app parseRFC3339 addon before (broken :: after) 0 None Hbefore)
    as (t & m & ->).
  cbn [mostRecent]. unfold related in Hrelated.
  rewrite Hrelated, Hstatus, HstartedAt, Htime. cbn [isNil]. by eexists.
Qed.

(** The execution of checksum [dddd] reports that it started
    "yesterday". *)
Lemma submit_unreadable_start_witness :
  let broken := example.execution "addon-1-prereqs-dddd-wf" "yesterday" "Succeeded" in
  let w := example.world [example.wfB; broken; example.wfA] in
  exists err,
    submit rfc3339.parse example.addonGroup example.addon example.rendered w
    = (Return (Failed, Some err), w).
Proof.
  intros broken w.
  apply (submit_unreadable_start rfc3339.parse example.addonGroup example.addon
           example.rendered example.wfB w [example.wfB] [example.wfA] broken
           {[ "startedAt" := VString "yesterday"; "phase" := VString "Succeeded" ]}
           "yesterday").
  - vm_compute. reflexivity.
  - vm_compute. reflexivity.
  - apply List.Forall_cons; [|apply List.Forall_nil]. intros _. vm_compute. by eexists.
  - vm_compute. reflexivity.
  - vm_compute. reflexivity.
  - vm_compute. reflexivity.
  - vm_compute. reflexivity.
Defined.
